(** * top-questions: the report pipeline of [src/index.ts], [src/db.ts]
      and [src/server.ts], embedded in Rocq

    The development follows the TypeScript sources function by function.

    - Strings are Rocq strings: sequences of code units below 256 (Latin-1
      text), with the case folding and the white space of that range.
    - Question counts, token counts, the requested top count and clock
      readings are integers ([Z]); the estimated cost is an IEEE binary64
      number ([float]), as every JavaScript number is.
    - What the JavaScript runtime and the libraries provide (the collation
      behind [localeCompare], [JSON.parse], the sentence tokenizer of
      [natural], the [Date] arithmetic of the time window and the replies of
      the completion service) is taken as a parameter of the section
      [Pipeline].
    - The [reports] table is a finite map from the primary key to the row. *)

From Stdlib Require Import ZArith Floats Uint63 Ascii String List Lia.
From Stdlib Require Import Sorting.Sorted Sorting.Permutation Structures.OrdersEx.
From stdpp Require Import base option list sorting gmap strings.

Set Warnings "-inexact-float,-register-all".
#[local] Open Scope string_scope.
#[local] Open Scope Z_scope.

(* ================================================================== *)
(** * JavaScript runtime: outcomes, strings, arrays, maps, JSON        *)
(* ================================================================== *)

Module Js.

(** A thrown value; every one the pipeline meets is an [Error] object and
    carries a [message]. *)
Inductive exn : Type :=
| Error (message : string)
| TypeError (message : string)
| SyntaxError (message : string)
| ZodError (message : string)
| SqliteError (message : string).

Definition exn_message (e : exn) : string :=
  match e with
  | Error m | TypeError m | SyntaxError m | ZodError m | SqliteError m => m
  end.

(** The result of running a piece of the program.  [IllTyped] marks a run
    that reaches the comparator or the aggregator with an array entry that
    is not a [{question: string, count: integer}] object: the source does
    not check the entries, what happens then depends on the engine's
    coercions and on which pairs its sort compares, and the model stops. *)
Inductive outcome (A : Type) : Type :=
| Returns (a : A)
| Throws (e : exn)
| IllTyped.
Arguments Returns {A} a.
Arguments Throws {A} e.
Arguments IllTyped {A}.

(** ** Strings *)

(** The lower-case form of a code unit: A to Z, and the capital letters of
    the Latin-1 supplement (192 to 222, the multiplication sign 215 apart). *)
Definition lower_char (c : ascii) : ascii :=
  let n := nat_of_ascii c in
  if (((65 <=? n) && (n <=? 90))
      || ((192 <=? n) && (n <=? 222) && negb (n =? 215)))%nat
  then ascii_of_nat (n + 32)
  else c.

(** [String.prototype.toLowerCase] *)
Fixpoint toLowerCase (s : string) : string :=
  match s with
  | EmptyString => EmptyString
  | String c s' => String (lower_char c) (toLowerCase s')
  end.

(** White space and line terminators: TAB, LF, VT, FF, CR, SPACE and the
    no-break space. *)
Definition isWhiteSpace (c : ascii) : bool :=
  let n := nat_of_ascii c in
  (((9 <=? n) && (n <=? 13)) || (n =? 32) || (n =? 160))%nat.

Fixpoint trimStart (s : string) : string :=
  match s with
  | EmptyString => EmptyString
  | String c s' => if isWhiteSpace c then trimStart s' else s
  end.

Fixpoint trimEnd (s : string) : string :=
  match s with
  | EmptyString => EmptyString
  | String c s' =>
      match trimEnd s' with
      | EmptyString => if isWhiteSpace c then EmptyString else String c EmptyString
      | r => String c r
      end
  end.

(** [String.prototype.trim] *)
Definition trim (s : string) : string := trimEnd (trimStart s).

(** [Array.prototype.join] on an array of strings *)
Definition join (sep : string) (l : list string) : string := String.concat sep l.

(** [s.split('T')[0]]: the text before the first [T] (all of it when there
    is none). *)
Fixpoint split_T_0 (s : string) : string :=
  match s with
  | EmptyString => EmptyString
  | String c s' => if Ascii.eqb c "T"%char then EmptyString else String c (split_T_0 s')
  end.

(** Truthiness of a value of type [string | undefined]. *)
Definition truthy (o : option string) : bool :=
  match o with
  | Some s => negb (String.eqb s "")
  | None => false
  end.

(** ** Arrays *)

(** [a.slice(0, e)]: a negative [e] counts from the end. *)
Definition slice0 {A : Type} (a : list A) (e : Z) : list A :=
  let len := Z.of_nat (length a) in
  let final := if e <? 0 then Z.max (len + e) 0 else Z.min e len in
  take (Z.to_nat final) a.

(** [Array.prototype.sort] with a comparator.  The language fixes the result
    only for a consistent comparator, and demands a stable sort; the model is
    the stable insertion sort: [x] goes behind [y] exactly when
    [cmp x y > 0]. *)
Fixpoint sort_insert {A : Type} (cmp : A -> A -> Z) (x : A) (l : list A) : list A :=
  match l with
  | [] => [x]
  | y :: l' => if cmp x y <=? 0 then x :: l else y :: sort_insert cmp x l'
  end.

Fixpoint sort {A : Type} (cmp : A -> A -> Z) (l : list A) : list A :=
  match l with
  | [] => []
  | x :: l' => sort_insert cmp x (sort cmp l')
  end.

(** [x] may stand before [y] for the comparator [cmp]. *)
Definition before {A : Type} (cmp : A -> A -> Z) (x y : A) : Prop := cmp x y <= 0.

(** ** [Map<string, V>]: entries in insertion order *)

Definition Map (V : Type) : Type := list (string * V).

Fixpoint Map_get {V : Type} (m : Map V) (k : string) : option V :=
  match m with
  | [] => None
  | (k', v) :: m' => if String.eqb k' k then Some v else Map_get m' k
  end.

(** [m.set(k, v)]: an existing key keeps its place, a new one goes last. *)
Fixpoint Map_set {V : Type} (m : Map V) (k : string) (v : V) : Map V :=
  match m with
  | [] => [(k, v)]
  | (k', v') :: m' => if String.eqb k' k then (k, v) :: m' else (k', v') :: Map_set m' k v
  end.

(** ** JSON values, with integer numbers *)

Inductive json : Type :=
| JNull
| JBool (b : bool)
| JNum (n : Z)
| JStr (s : string)
| JArr (items : list json)
| JObj (fields : list (string * json)).

(** Reading an own property of an object value. *)
Fixpoint field (fields : list (string * json)) (k : string) : option json :=
  match fields with
  | [] => None
  | (k', v) :: rest => if String.eqb k' k then Some v else field rest k
  end.

Definition is_digit (c : ascii) : bool :=
  let n := nat_of_ascii c in ((48 <=? n) && (n <=? 57))%nat.

(** The number that the digits at the head of [s] spell, after [acc]. *)
Fixpoint digits_value (acc : Z) (s : string) : Z :=
  match s with
  | EmptyString => acc
  | String c s' =>
      if is_digit c then digits_value (acc * 10 + Z.of_nat (nat_of_ascii c - 48)) s'
      else acc
  end.

(** [parseInt(s, 10)]: white space is skipped, a sign is read, then the
    longest run of digits; [None] is [NaN] (no digit there).  The integer is
    taken exactly (the runtime rounds it to a double above [2^53]). *)
Definition parseInt (s : string) : option Z :=
  let s := trimStart s in
  let '(sign, s) :=
    match s with
    | String "-" s' => (-1, s')
    | String "+" s' => (1, s')
    | _ => (1, s)
    end in
  match s with
  | EmptyString => None
  | String c _ => if is_digit c then Some (sign * digits_value 0 s) else None
  end.

(** [String.prototype.includes] *)
Fixpoint includes (s sub : string) : bool :=
  String.prefix sub s
  || match s with
     | EmptyString => false
     | String _ s' => includes s' sub
     end.

End Js.
Export Js.

(* ================================================================== *)
(** * [src/types.ts]                                                  *)
(* ================================================================== *)

Module Types.

Record QuestionFrequency : Type := {
  question : string;
  count : Z
}.

(** The [usage] member of [ClusteringResult]. *)
Record Usage : Type := {
  prompt_tokens : Z;
  completion_tokens : Z;
  total_tokens : Z;
  estimated_cost_usd : float
}.

Record ClusteringResult : Type := {
  questions : list QuestionFrequency;
  usage : Usage
}.

End Types.
Export Types.

(** The part of a chat completion that [processDailyBatch] reads: the
    [message.content] of each choice ([string | null]) and the token usage. *)
Module OpenAI.

Record CompletionUsage : Type := {
  prompt_tokens : Z;
  completion_tokens : Z;
  total_tokens : Z
}.

Record ChatCompletion : Type := {
  choices : list (option string);
  usage : option CompletionUsage
}.

End OpenAI.

(* ================================================================== *)
(** * [src/index.ts]: data                                            *)
(* ================================================================== *)

Inductive TimeRange : Type :=
| today | yesterday | last7 | last30 | alltime | monthToDate.

Definition TimeRange_eqb (a b : TimeRange) : bool :=
  match a, b with
  | today, today | yesterday, yesterday | last7, last7
  | last30, last30 | alltime, alltime | monthToDate, monthToDate => true
  | _, _ => false
  end.

(** [z.enum([...])] of [envSchema] and [querySchema]. *)
Definition parse_range (s : string) : option TimeRange :=
  if String.eqb s "today" then Some today
  else if String.eqb s "yesterday" then Some yesterday
  else if String.eqb s "last7" then Some last7
  else if String.eqb s "last30" then Some last30
  else if String.eqb s "alltime" then Some alltime
  else if String.eqb s "monthToDate" then Some monthToDate
  else None.

Definition range_label (r : TimeRange) : string :=
  match r with
  | today => "today" | yesterday => "yesterday" | last7 => "last7"
  | last30 => "last30" | alltime => "alltime" | monthToDate => "monthToDate"
  end.

(** The module-level [env] that [setEnvironmentVariables] replaces, passed
    explicitly.  [TOP_QUESTIONS] is the integer [parseInt] read; a text it
    reads as [NaN] is outside the model. *)
Record Env : Type := {
  TIME_RANGE : TimeRange;
  TOP_QUESTIONS : Z;
  IS_SERVER : bool
}.

(** [TranscriptDialog], with the members of [payload.payload] the pipeline
    reads. *)
Record InnerPayload : Type := {
  message : option string;
  query : option string
}.

Record Payload : Type := {
  payload_type : option string;
  payload : option InnerPayload
}.

Record TranscriptDialog : Type := {
  turnID : string;
  type : string;
  startTime : option string;
  turn_payload : Payload
}.

Module DailyQuestions.
Record t : Type := {
  date : string;
  questions : list string
}.
End DailyQuestions.

(** [GPT_PRICING] *)
Definition prompt_per_1k : float := 0.03%float.
Definition completion_per_1k : float := 0.06%float.

(** An integer as a JavaScript number (exact below [2^53] in size). *)
Definition number (z : Z) : float :=
  if z <? 0 then PrimFloat.opp (PrimFloat.of_uint63 (Uint63.of_Z (- z)))
  else PrimFloat.of_uint63 (Uint63.of_Z z).

Definition zero_usage : Usage :=
  {| prompt_tokens := 0; completion_tokens := 0; total_tokens := 0;
     estimated_cost_usd := 0%float |}.

Definition empty_result : ClusteringResult :=
  {| questions := []; usage := zero_usage |}.

(** The pipeline's monad: an outcome, threaded with the number of calls made
    to the completion service so far. *)
Definition M (A : Type) : Type := nat -> outcome (A * nat).

Definition ret {A : Type} (a : A) : M A := fun n => Returns (a, n).

Definition bind {A B : Type} (m : M A) (k : A -> M B) : M B :=
  fun n =>
    match m n with
    | Returns (a, n') => k a n'
    | Throws e => Throws e
    | IllTyped => IllTyped
    end.

Definition lift {A : Type} (o : outcome A) : M A :=
  fun n =>
    match o with
    | Returns a => Returns (a, n)
    | Throws e => Throws e
    | IllTyped => IllTyped
    end.

Notation "'let*' x ':=' m 'in' k" := (bind m (fun x => k))
  (at level 10, x name, m at level 100, k at level 200).

(* ================================================================== *)
(** * [src/index.ts]: the pipeline                                    *)
(* ================================================================== *)

Section Pipeline.

(** [a.localeCompare(b)]: the collation of the runtime, negative, zero or
    positive. *)
Variable localeCompare : string -> string -> Z.

(** [JSON.parse]: the parsed value, or the message of the [SyntaxError]. *)
Variable JSON_parse : string -> string + json.

(** [tokenizer.tokenize] of [natural.SentenceTokenizer]; [None] stands for a
    falsy return, which the source replaces by [[]]. *)
Variable tokenize : string -> option (list string).

(** [isMessageInTimeRange]: [new Date(startTime)] lies between the bounds
    that [getTimeRangeConstraints] computes from the clock. *)
Variable isMessageInTimeRange : string -> TimeRange -> bool.

(** [openai.chat.completions.create]: the reply to the call number [n],
    given the top count and the questions that the prompt lists. *)
Variable create : nat -> Z -> list string -> outcome OpenAI.ChatCompletion.

(** ** Question extractor *)

Definition is_request_with_query (turn : TranscriptDialog) : bool :=
  String.eqb (type turn) "request"
  && truthy (payload (turn_payload turn) ≫= query).

Definition query_text (turn : TranscriptDialog) : string :=
  default "" (payload (turn_payload turn) ≫= query).

Definition extractTextFromDialog (dialog : list TranscriptDialog) : string :=
  join " " (map query_text (List.filter is_request_with_query dialog)).

(** Modelled from the spec: [src/index.ts] breaks off inside
    [extractQuestions] after [return sentences] (the rest of the chain is
    cut, only its closing bracket is left); the spec, section 4.3, says
    that empty or whitespace-only segments are dropped. *)
Definition drop_blank_segments (sentences : list string) : list string :=
  List.filter (fun s => negb (String.eqb (trim s) "")) sentences.

Definition extractQuestions (transcript : string) : list string :=
  let sentences := default [] (tokenize transcript) in
  drop_blank_segments sentences.

(** ** Daily batcher *)

Definition filterDialogsByTimeRange (dialog : list TranscriptDialog) (range : TimeRange)
  : list TranscriptDialog :=
  List.filter
    (fun message =>
       match startTime message with
       | Some s => negb (String.eqb s "") && isMessageInTimeRange s range
       | None => false
       end)
    dialog.

(** One turn of the [forEach] of [groupQuestionsByDate]. *)
Definition group_dialog (timeRange : TimeRange) (dailyQuestionsMap : Map (list string))
    (dialog : list TranscriptDialog) : Map (list string) :=
  let filteredDialog := filterDialogsByTimeRange dialog timeRange in
  match filteredDialog with
  | [] => dailyQuestionsMap
  | firstMessage :: _ =>
      match startTime firstMessage with
      | None => dailyQuestionsMap
      | Some st =>
          if String.eqb st "" then dailyQuestionsMap
          else
            let date := split_T_0 st in
            let questions := extractQuestions (extractTextFromDialog filteredDialog) in
            match questions with
            | [] => dailyQuestionsMap
            | _ :: _ =>
                let existing := default [] (Map_get dailyQuestionsMap date) in
                Map_set dailyQuestionsMap date (existing ++ questions)%list
            end
      end
  end.

Definition groupQuestionsByDate (dialogs : list (list TranscriptDialog)) (timeRange : TimeRange)
  : list DailyQuestions.t :=
  let dailyQuestionsMap := fold_left (group_dialog timeRange) dialogs [] in
  sort
    (fun a b => localeCompare (DailyQuestions.date b) (DailyQuestions.date a))
    (map (fun '(date, questions) =>
            {| DailyQuestions.date := date; DailyQuestions.questions := questions |})
         dailyQuestionsMap).

(** ** Cluster engine *)

(** The comparator of both sorts: by [count] descending, then by
    [localeCompare] of the question. *)
Definition compareFrequency (a b : QuestionFrequency) : Z :=
  if negb (count a =? count b) then count b - count a
  else localeCompare (question a) (question b).

(** An array entry at the type the comparator annotates it with. *)
Definition as_entry (v : json) : option QuestionFrequency :=
  match v with
  | JObj fields =>
      match field fields "question", field fields "count" with
      | Some (JStr q), Some (JNum n) => Some {| question := q; count := n |}
      | _, _ => None
      end
  | _ => None
  end.

(** [JSON.parse(content).questions] *)
Definition read_questions (content : string) : outcome (option json) :=
  match JSON_parse content with
  | inl msg => Throws (SyntaxError msg)
  | inr JNull => Throws (TypeError "Cannot read properties of null (reading 'questions')")
  | inr (JObj fields) => Returns (field fields "questions")
  | inr _ => Returns None
  end.

(** [clusters.sort(...).slice(0, parseInt(env.TOP_QUESTIONS.toString()))];
    printing and reading [TOP_QUESTIONS] again gives the same integer (for a
    size below [10^21]). *)
Definition sort_and_slice (env : Env) (clusters : option json)
  : outcome (list QuestionFrequency) :=
  match clusters with
  | None => Throws (TypeError "Cannot read properties of undefined (reading 'sort')")
  | Some JNull => Throws (TypeError "Cannot read properties of null (reading 'sort')")
  | Some (JArr items) =>
      match mapM as_entry items with
      | Some entries => Returns (slice0 (sort compareFrequency entries) (TOP_QUESTIONS env))
      | None => IllTyped
      end
  | Some _ => Throws (TypeError "clusters.sort is not a function")
  end.

Definition estimated_cost (u : OpenAI.CompletionUsage) : float :=
  (number (OpenAI.prompt_tokens u) / 1000 * prompt_per_1k
   + number (OpenAI.completion_tokens u) / 1000 * completion_per_1k)%float.

(** [processDailyBatch] from the reply on (lines 316 to 344). *)
Definition cluster_reply (env : Env) (response : OpenAI.ChatCompletion)
  : outcome ClusteringResult :=
  match OpenAI.choices response with
  | [] => Throws (TypeError "Cannot read properties of undefined (reading 'message')")
  | content :: _ =>
      match content with
      | None => Returns empty_result
      | Some c =>
          if String.eqb c "" then Returns empty_result
          else
            match read_questions c with
            | Throws e => Throws e
            | IllTyped => IllTyped
            | Returns clusters =>
                let usage :=
                  default {| OpenAI.prompt_tokens := 0; OpenAI.completion_tokens := 0;
                             OpenAI.total_tokens := 0 |}
                          (OpenAI.usage response) in
                let estimated_cost_usd := estimated_cost usage in
                match sort_and_slice env clusters with
                | Throws e => Throws e
                | IllTyped => IllTyped
                | Returns sortedQuestions =>
                    Returns
                      {| questions := sortedQuestions;
                         usage :=
                           {| prompt_tokens := OpenAI.prompt_tokens usage;
                              completion_tokens := OpenAI.completion_tokens usage;
                              total_tokens := OpenAI.total_tokens usage;
                              estimated_cost_usd := estimated_cost_usd |} |}
                end
            end
      end
  end.

Definition processDailyBatch (env : Env) (questions : list string) : M ClusteringResult :=
  match questions with
  | [] => ret empty_result
  | _ :: _ =>
      let* response :=
        (fun n =>
           match create n (TOP_QUESTIONS env) questions with
           | Returns r => Returns (r, S n)
           | Throws e => Throws e
           | IllTyped => IllTyped
           end) in
      lift (cluster_reply env response)
  end.

(** ** Aggregator *)

(** The body of the inner [forEach] of [combineResults]. *)
Definition add_question (frequencyMap : Map Z) (q : QuestionFrequency) : Map Z :=
  let normalized := trim (toLowerCase (question q)) in
  Map_set frequencyMap normalized (default 0 (Map_get frequencyMap normalized) + count q).

Definition frequencies (dailyResults : list ClusteringResult) : Map Z :=
  fold_left (fun m result => fold_left add_question (questions result) m) dailyResults [].

Definition add_usage (acc : Usage) (curr : ClusteringResult) : Usage :=
  {| prompt_tokens := prompt_tokens acc + prompt_tokens (usage curr);
     completion_tokens := completion_tokens acc + completion_tokens (usage curr);
     total_tokens := total_tokens acc + total_tokens (usage curr);
     estimated_cost_usd := (estimated_cost_usd acc + estimated_cost_usd (usage curr))%float |}.

Definition combineResults (env : Env) (dailyResults : list ClusteringResult)
  : ClusteringResult :=
  let frequencyMap := frequencies dailyResults in
  let combinedQuestions :=
    slice0
      (sort compareFrequency
         (map (fun '(question, count) => {| question := question; count := count |})
              frequencyMap))
      (TOP_QUESTIONS env) in
  let usage := fold_left add_usage dailyResults zero_usage in
  {| questions := combinedQuestions; usage := usage |}.

(** ** [analyzeQuestions], from the fetched dialogs on *)

(** The loop over [dailyQuestions] (the server-mode loop; the loop with
    progress display has the same guard and differs in what it prints). *)
Fixpoint process_days (env : Env) (dailyQuestions : list DailyQuestions.t)
    (dailyResults : list ClusteringResult) : M (list ClusteringResult) :=
  match dailyQuestions with
  | [] => ret dailyResults
  | day :: rest =>
      let* result := processDailyBatch env (DailyQuestions.questions day) in
      process_days env rest
        (match questions result with
         | [] => dailyResults
         | _ :: _ => (dailyResults ++ [result])%list
         end)
  end.

(** Not a function of the source: the result of every batch that the loop
    processes, in processing order, whether the loop pushes it or not.  It
    says what "every batch processed" means in the property of the usage
    account. *)
Fixpoint batch_results (env : Env) (dailyQuestions : list DailyQuestions.t)
  : M (list ClusteringResult) :=
  match dailyQuestions with
  | [] => ret []
  | day :: rest =>
      let* result := processDailyBatch env (DailyQuestions.questions day) in
      let* results := batch_results env rest in
      ret (result :: results)
  end.

(** [fetched] is what the two fetching steps leave: the error of
    [fetchTranscriptSummaries], or the dialogs whose fetch succeeded. *)
Definition analyzeQuestions (env : Env) (fetched : outcome (list (list TranscriptDialog)))
  : M ClusteringResult :=
  let* allDialogs := lift fetched in
  if TimeRange_eqb (TIME_RANGE env) today then
    let allQuestions :=
      List.filter (fun q => negb (String.eqb q ""))
        (flat_map
           (fun dialog =>
              map query_text
                (List.filter is_request_with_query
                   (filterDialogsByTimeRange dialog (TIME_RANGE env))))
           allDialogs) in
    processDailyBatch env allQuestions
  else
    let dailyQuestions := groupQuestionsByDate allDialogs (TIME_RANGE env) in
    let* dailyResults := process_days env dailyQuestions [] in
    ret (combineResults env dailyResults).

End Pipeline.

(* ================================================================== *)
(** * [src/db.ts]: the report store                                   *)
(* ================================================================== *)

Module Db.

Inductive Status : Type := pending | completed | failed.

(** [Report].  Time stamps are clock readings in milliseconds; the source
    keeps their ISO 8601 text, which orders the same way. *)
Module Report.
Record t : Type := {
  id : string;
  status : Status;
  timeRange : string;
  topCount : Z;
  result : option ClusteringResult;
  error : option string;
  createdAt : Z;
  updatedAt : Z
}.
End Report.

(** A row of the table [reports].  The [result] column holds the JSON text
    of a [ClusteringResult]; the model keeps the value itself. *)
Module DBReport.
Record t : Type := {
  id : string;
  status : Status;
  time_range : string;
  top_count : Z;
  result : option ClusteringResult;
  error : option string;
  created_at : Z;
  updated_at : Z
}.
End DBReport.

(** [Partial<Report>], with the three members that [updateReport] reads. *)
Module Update.
Record t : Type := {
  status : option Status;
  result : option ClusteringResult;
  error : option string
}.
End Update.

(** The table, keyed by its primary key. *)
Abbreviation table := (gmap string DBReport.t).

(** [INSERT INTO reports ...]: refused when the primary key is taken.  A
    store operation ends in [inl] with the error it throws, or in [inr]. *)
Definition createReport (now : Z) (id timeRange : string) (topCount : Z) (db : table)
  : exn + Report.t * table :=
  let report :=
    {| Report.id := id; Report.status := pending; Report.timeRange := timeRange;
       Report.topCount := topCount; Report.result := None; Report.error := None;
       Report.createdAt := now; Report.updatedAt := now |} in
  match db !! id with
  | Some _ => inl (SqliteError "SQLITE_CONSTRAINT: UNIQUE constraint failed: reports.id")
  | None =>
      inr
        (report,
         <[id := {| DBReport.id := id; DBReport.status := Report.status report;
                    DBReport.time_range := timeRange; DBReport.top_count := topCount;
                    DBReport.result := None; DBReport.error := None;
                    DBReport.created_at := now; DBReport.updated_at := now |}]> db)
  end.

(** One [column = ?] of the [SET] clause, with its value. *)
Inductive assignment : Type :=
| set_status (v : Status)
| set_result (v : ClusteringResult)
| set_error (v : string)
| set_updated_at (v : Z).

Definition assign (row : DBReport.t) (a : assignment) : DBReport.t :=
  match a with
  | set_status v =>
      {| DBReport.id := DBReport.id row; DBReport.status := v;
         DBReport.time_range := DBReport.time_range row;
         DBReport.top_count := DBReport.top_count row;
         DBReport.result := DBReport.result row; DBReport.error := DBReport.error row;
         DBReport.created_at := DBReport.created_at row;
         DBReport.updated_at := DBReport.updated_at row |}
  | set_result v =>
      {| DBReport.id := DBReport.id row; DBReport.status := DBReport.status row;
         DBReport.time_range := DBReport.time_range row;
         DBReport.top_count := DBReport.top_count row;
         DBReport.result := Some v; DBReport.error := DBReport.error row;
         DBReport.created_at := DBReport.created_at row;
         DBReport.updated_at := DBReport.updated_at row |}
  | set_error v =>
      {| DBReport.id := DBReport.id row; DBReport.status := DBReport.status row;
         DBReport.time_range := DBReport.time_range row;
         DBReport.top_count := DBReport.top_count row;
         DBReport.result := DBReport.result row; DBReport.error := Some v;
         DBReport.created_at := DBReport.created_at row;
         DBReport.updated_at := DBReport.updated_at row |}
  | set_updated_at v =>
      {| DBReport.id := DBReport.id row; DBReport.status := DBReport.status row;
         DBReport.time_range := DBReport.time_range row;
         DBReport.top_count := DBReport.top_count row;
         DBReport.result := DBReport.result row; DBReport.error := DBReport.error row;
         DBReport.created_at := DBReport.created_at row;
         DBReport.updated_at := v |}
  end.

(** The [sets] and [values] that [updateReport] collects. *)
Definition sets (now : Z) (update : Update.t) : list assignment :=
  (match Update.status update with Some v => [set_status v] | None => [] end
   ++ match Update.result update with Some v => [set_result v] | None => [] end
   ++ match Update.error update with
      | Some v => if String.eqb v "" then [] else [set_error v]
      | None => []
      end
   ++ [set_updated_at now])%list.

(** [UPDATE reports SET ... WHERE id = ?]: every row with the key is
    rewritten; there being none is no error. *)
Definition updateReport (now : Z) (id : string) (update : Update.t) (db : table)
  : exn + table :=
  inr (alter (fun row => fold_left assign (sets now update) row) id db).

Definition getReport (id : string) (db : table) : option Report.t :=
  match db !! id with
  | None => None
  | Some row =>
      Some
        {| Report.id := DBReport.id row; Report.status := DBReport.status row;
           Report.timeRange := DBReport.time_range row;
           Report.topCount := DBReport.top_count row;
           Report.result := DBReport.result row; Report.error := DBReport.error row;
           Report.createdAt := DBReport.created_at row;
           Report.updatedAt := DBReport.updated_at row |}
  end.

(** The row that an update leaves in place of [row]. *)
Definition updated (now : Z) (update : Update.t) (row : DBReport.t) : DBReport.t :=
  fold_left assign (sets now update) row.

(** A terminal report carries exactly one of [result] and [error]. *)
Definition exactly_one_payload (r : Report.t) : Prop :=
  (is_Some (Report.result r) /\ Report.error r = None)
  \/ (Report.result r = None /\ is_Some (Report.error r)).

Definition well_formed (r : Report.t) : Prop :=
  Report.createdAt r <= Report.updatedAt r
  /\ (Report.status r = pending -> Report.result r = None /\ Report.error r = None)
  /\ (Report.status r <> pending -> exactly_one_payload r).

(** The reports that [getReport] shows after [createReport] and at most one
    [updateReport] of the same id; [allowed t0 t1 update] limits the clock
    readings of the two calls and the update. *)
Inductive reachable (allowed : Z -> Z -> Update.t -> Prop) : Report.t -> Prop :=
| reachable_created (db db1 : table) (t0 : Z) (id timeRange : string) (topCount : Z)
    (created r : Report.t) :
    createReport t0 id timeRange topCount db = inr (created, db1) ->
    getReport id db1 = Some r ->
    reachable allowed r
| reachable_updated (db db1 db2 : table) (t0 t1 : Z) (id timeRange : string) (topCount : Z)
    (created r : Report.t) (update : Update.t) :
    createReport t0 id timeRange topCount db = inr (created, db1) ->
    allowed t0 t1 update ->
    updateReport t1 id update db1 = inr db2 ->
    getReport id db2 = Some r ->
    reachable allowed r.

(** Any update, issued when the clock has not run backwards. *)
Definition any_update (t0 t1 : Z) (update : Update.t) : Prop := t0 <= t1.

(** The two writes of the orchestrator with a payload that is truthy:
    [{status: 'completed', result}] and [{status: 'failed', error}] with a
    message that is not empty; the clock has not run backwards. *)
Definition terminal_write (t0 t1 : Z) (update : Update.t) : Prop :=
  t0 <= t1
  /\ ((exists result,
         update = {| Update.status := Some completed; Update.result := Some result;
                     Update.error := None |})
      \/ (exists message,
            message <> "" /\
            update = {| Update.status := Some failed; Update.result := None;
                        Update.error := Some message |})).


End Db.

(* ================================================================== *)
(** * [src/server.ts]: the job orchestrator                           *)
(* ================================================================== *)

Module Server.

(** The response of the credential probe. *)
Record Response : Type := {
  status : Z;
  statusText : string
}.

Definition ok (r : Response) : bool := (200 <=? status r) && (status r <=? 299).

(** [req.query], with [top] as the integer that [parseInt] reads from it. *)
Record Query : Type := {
  range : option string;
  top : option Z
}.

(** How the handler ends: [res.json] with the report id, or [next(error)]. *)
Inductive reply : Type :=
| json_started (reportId : string) (status : Db.Status)
| next (error : exn).

(** The synchronous phase of [analyzeHandler]: the table it leaves, its
    reply, and the configuration of the detached analysis when it starts one.
    [reportId] is the UUID drawn for the request; [testRequest] is the
    response of the probe, or the error [fetch] rejects with.  [process.env]
    is taken to hold the keys that [envSchema] requires (the module [index]
    does not load without them), so [setEnvironmentVariables] returns. *)
Definition analyzeHandler (now : Z) (reportId : string) (query : Query)
    (testRequest : exn + Response) (db : Db.table)
  : Db.table * reply * option Env :=
  let range_text := default "last7" (range query) in
  let top := default 10 (top query) in
  match parse_range range_text with
  | None => (db, next (ZodError "Invalid enum value"), None)
  | Some range =>
      let env := {| TIME_RANGE := range; TOP_QUESTIONS := top; IS_SERVER := true |} in
      match Db.createReport now reportId range_text top db with
      | inl e => (db, next e, None)
      | inr (report, db1) =>
          match testRequest with
          | inl e => (db1, next e, None)
          | inr testRequest =>
              if negb (ok testRequest) then
                if status testRequest =? 401 then
                  (db1, next (Error "Invalid Voiceflow API key"), None)
                else if status testRequest =? 404 then
                  (db1, next (Error "Invalid project ID"), None)
                else
                  (db1,
                   next (Error ("Failed to validate credentials: " ++ statusText testRequest)),
                   None)
              else
                (db1, json_started reportId (Db.Report.status report), Some env)
          end
      end
  end.

(** The two continuations attached to [analyzeQuestions()]: the terminal
    write of the detached analysis. *)
Definition settle (now : Z) (reportId : string) (analysis : outcome (ClusteringResult * nat))
    (db : Db.table) : outcome (exn + Db.table) :=
  match analysis with
  | Returns (result, _) =>
      Returns
        (Db.updateReport now reportId
           {| Db.Update.status := Some Db.completed; Db.Update.result := Some result;
              Db.Update.error := None |} db)
  | Throws error =>
      Returns
        (Db.updateReport now reportId
           {| Db.Update.status := Some Db.failed; Db.Update.result := None;
              Db.Update.error := Some (exn_message error) |} db)
  | IllTyped => IllTyped
  end.

(** The [data] of the reply to a poll. *)
Record ReportData : Type := {
  data_status : Db.Status;
  data_timeRange : string;
  data_createdAt : Z;
  data_updatedAt : Z;
  data_result : option ClusteringResult;
  data_error : option string
}.

(** What a handler sends: the status code and the body, which holds the
    data of a started analysis, the data of a report, or an error text. *)
Inductive body : Type :=
| started_body (reportId : string) (status : Db.Status)
| report_body (data : ReportData)
| error_body (error : string)
| health_body.

Definition getReportHandler (reportId : string) (db : Db.table) : Z * body :=
  match Db.getReport reportId db with
  | None => (404, error_body "Report not found")
  | Some report =>
      (200,
       report_body
         {| data_status := Db.Report.status report;
            data_timeRange := Db.Report.timeRange report;
            data_createdAt := Db.Report.createdAt report;
            data_updatedAt := Db.Report.updatedAt report;
            data_result :=
              match Db.Report.status report with
              | Db.completed => Db.Report.result report
              | _ => None
              end;
            data_error :=
              match Db.Report.status report with
              | Db.failed => Db.Report.error report
              | _ => None
              end |})
  end.

Definition healthHandler : Z * body := (200, health_body).

(** [errorHandler]; none of the errors that the handlers forward carries a
    [status], so the last reply has the code 500. *)
Definition errorHandler (err : exn) : Z * body :=
  if includes (exn_message err) "Invalid Voiceflow API key" then
    (401, error_body "Invalid Voiceflow API key")
  else if includes (exn_message err) "Invalid project ID" then
    (404, error_body "Invalid project ID")
  else (500, error_body (exn_message err)).

(** [POST /api/analyze] as the client sees it: the handler, and the error
    middleware behind it. *)
Definition post_analyze (now : Z) (reportId : string) (query : Query)
    (testRequest : exn + Response) (db : Db.table) : Db.table * (Z * body) :=
  match analyzeHandler now reportId query testRequest db with
  | (db', json_started id status, _) => (db', (200, started_body id status))
  | (db', next err, _) => (db', errorHandler err)
  end.

End Server.

(* ================================================================== *)
(** * A concrete runtime, for closed examples                         *)
(* ================================================================== *)

Module Sample.

(** Comparison by character code: the collation of a runtime without locale
    data. *)
Definition codeCompare (a b : string) : Z :=
  match String_as_OT.compare a b with
  | Lt => -1
  | Eq => 0
  | Gt => 1
  end.

Definition dquote : string := String (ascii_of_nat 34) EmptyString.

(** The JSON text of an object whose only member is an empty [questions]
    array. *)
Definition no_clusters_text : string :=
  ("{" ++ dquote ++ "questions" ++ dquote ++ ":[]}")%string.

Definition entry_text (question : string) (count : string) : string :=
  ("{" ++ dquote ++ "question" ++ dquote ++ ":" ++ dquote ++ question ++ dquote
   ++ "," ++ dquote ++ "count" ++ dquote ++ ":" ++ count ++ "}")%string.

(** The JSON text of [{questions: [{question: a, count: 2}, {question: b,
    count: 1}]}], with double quotes around the names and the two strings. *)
Definition two_clusters_text : string :=
  ("{" ++ dquote ++ "questions" ++ dquote ++ ":["
   ++ entry_text "a" "2" ++ "," ++ entry_text "b" "1" ++ "]}")%string.

Definition two_clusters : json :=
  JObj [("questions",
         JArr [JObj [("question", JStr "a"); ("count", JNum 2)];
               JObj [("question", JStr "b"); ("count", JNum 1)]])].

(** [JSON.parse] on the six texts the examples use; on them it agrees with
    the runtime's, every other text is outside the examples. *)
Definition parse (s : string) : string + json :=
  if String.eqb s two_clusters_text then inr two_clusters
  else if String.eqb s "{}" then inr (JObj [])
  else if String.eqb s "null" then inr JNull
  else if String.eqb s "[]" then inr (JArr [])
  else if String.eqb s no_clusters_text then inr (JObj [("questions", JArr [])])
  else if String.eqb s "not json" then
    inl "Unexpected token 'o', 'not json' is not valid JSON"
  else inl "outside the examples".

(** A tokenizer that finds one sentence. *)
Definition tokenize (s : string) : option (list string) := Some [s].

(** A clock for which every message lies in the window. *)
Definition isMessageInTimeRange (_ : string) (_ : TimeRange) : bool := true.

Definition turn (type : string) (startTime query : option string) : TranscriptDialog :=
  {| turnID := "t"; type := type; startTime := startTime;
     turn_payload :=
       {| payload_type := None;
          payload := Some {| message := None; query := query |} |} |}.

(** A completion service that answers every call with the same content and
    usage. *)
Definition answer (content : option string) (usage : option OpenAI.CompletionUsage)
  : nat -> Z -> list string -> outcome OpenAI.ChatCompletion :=
  fun _ _ _ => Returns {| OpenAI.choices := [content]; OpenAI.usage := usage |}.

(** What the cluster engine makes of a reply with the two clusters and a
    usage of [prompt] prompt tokens and [completion] completion tokens, for a
    top count of 10. *)
Definition batch (prompt completion : Z) : ClusteringResult :=
  match
    cluster_reply codeCompare parse
      {| TIME_RANGE := last7; TOP_QUESTIONS := 10; IS_SERVER := true |}
      {| OpenAI.choices := [Some two_clusters_text];
         OpenAI.usage :=
           Some {| OpenAI.prompt_tokens := prompt;
                   OpenAI.completion_tokens := completion;
                   OpenAI.total_tokens := prompt + completion |} |}
  with
  | Returns r => r
  | _ => empty_result
  end.

(** [new Date(s).getTime()] on the two texts the examples use: the midnight
    that starts the first of May 2024, and ten hours later. *)
Definition Date_parse (s : string) : option Z :=
  if String.eqb s "2024-05-01T00:00:00.000Z" then Some 1714521600000
  else if String.eqb s "2024-05-01T10:00:00.000Z" then Some 1714557600000
  else None.

(** The row of a report created at the clock reading 3. *)
Definition pending_row : Db.DBReport.t :=
  {| Db.DBReport.id := "r-1"; Db.DBReport.status := Db.pending;
     Db.DBReport.time_range := "last7"; Db.DBReport.top_count := 10;
     Db.DBReport.result := None; Db.DBReport.error := None;
     Db.DBReport.created_at := 3; Db.DBReport.updated_at := 3 |}.

(** One transcript with one request, started on the first of May. *)
Definition one_dialog : list (list TranscriptDialog) :=
  [[turn "request" (Some "2024-05-01T10:00:00.000Z") (Some "How do I reset my password?")]].

End Sample.

(* ================================================================== *)
(** * [src/index.ts]: the time window                                 *)
(* ================================================================== *)

Module TimeWindow.

(** The local calendar of the runtime, on instants in milliseconds:
    [startOfDay t] is [new Date(y, m, d)] for the date of [t], [addDays t k]
    is [setDate(getDate() + k)] applied to [t], [startOfMonth t] is
    [new Date(y, m, 1)] for the month of [t]. *)
Record Calendar : Type := {
  startOfDay : Z -> Z;
  addDays : Z -> Z -> Z;
  startOfMonth : Z -> Z
}.

(** What the windows need of a calendar: the day and the month start no
    later than the instant, and moving by more days gives a later instant. *)
Record calendar_laws (c : Calendar) : Prop := {
  startOfDay_le : forall t, startOfDay c t <= t;
  startOfMonth_le : forall t, startOfMonth c t <= t;
  addDays_0 : forall t, addDays c t 0 = t;
  addDays_mono : forall t k k', k <= k' -> addDays c t k <= addDays c t k'
}.

Section Windows.
Variable calendar : Calendar.

(** [new Date(startTime).getTime()]; [None] is the invalid date. *)
Variable Date_parse : string -> option Z.

(** [getTimeRangeConstraints], for the clock reading [now]: the pair of
    [startDate] and [endDate]. *)
Definition getTimeRangeConstraints (now : Z) (range : TimeRange) : Z * Z :=
  let today := startOfDay calendar now in
  match range with
  | today => (today, now)
  | yesterday => (addDays calendar today (-1), today)
  | last7 => (addDays calendar today (-7), now)
  | last30 => (addDays calendar today (-30), now)
  | monthToDate => (startOfMonth calendar today, now)
  | alltime => (0, now)
  end.

(** [isMessageInTimeRange]; a comparison with the invalid date is false. *)
Definition isMessageInTimeRange (now : Z) (startTime : string) (range : TimeRange) : bool :=
  match Date_parse startTime with
  | None => false
  | Some messageDate =>
      let '(startDate, endDate) := getTimeRangeConstraints now range in
      (startDate <=? messageDate) && (messageDate <=? endDate)
  end.

End Windows.

(** The calendar of a runtime whose time zone is UTC. *)
Definition day_ms : Z := 86400000.

(** The day of the month of the day number [z] (days since the epoch), by
    the civil-calendar computation on eras of 400 years. *)
Definition dayOfMonth (z : Z) : Z :=
  let z := z + 719468 in
  let era := z / 146097 in
  let doe := z - era * 146097 in
  let yoe := (doe - doe / 1460 + doe / 36524 - doe / 146096) / 365 in
  let doy := doe - (365 * yoe + yoe / 4 - yoe / 100) in
  let mp := (5 * doy + 2) / 153 in
  doy - (153 * mp + 2) / 5 + 1.

Definition utc : Calendar :=
  {| startOfDay := fun t => t - t mod day_ms;
     addDays := fun t k => t + k * day_ms;
     startOfMonth := fun t => (t - t mod day_ms) - (dayOfMonth (t / day_ms) - 1) * day_ms |}.

End TimeWindow.

(* ================================================================== *)
(** * [src/index.ts]: configuration                                   *)
(* ================================================================== *)

Module Config.

(** The four variables of [process.env] that [getConfig] reads. *)
Module ProcessEnv.
Record t : Type := {
  PROJECT_ID : option string;
  VF_API_KEY : option string;
  OPENAI_API_KEY : option string;
  VF_CLOUD : option string
}.
End ProcessEnv.

(** The module-level [envVars].  The handler also spreads [VF_API_KEY] and
    [PROJECT_ID] into it when the request body names them. *)
Module EnvVars.
Record t : Type := {
  TIME_RANGE : string;
  TOP_QUESTIONS : string;
  IS_SERVER : bool;
  VF_API_KEY : option string;
  PROJECT_ID : option string
}.
End EnvVars.

(** The argument of [getConfig]: a member is [None] when the object does
    not have the key. *)
Module Overrides.
Record t : Type := {
  TIME_RANGE : option string;
  TOP_QUESTIONS : option string;
  IS_SERVER : option bool;
  VF_API_KEY : option string;
  PROJECT_ID : option string
}.
End Overrides.

(** What [envSchema.parse] returns: the module-level [env].
    [TOP_QUESTIONS] is [None] when [parseInt] gives [NaN]. *)
Module Parsed.
Record t : Type := {
  PROJECT_ID : string;
  VF_API_KEY : string;
  OPENAI_API_KEY : string;
  TOP_QUESTIONS : option Z;
  TIME_RANGE : TimeRange;
  IS_SERVER : bool;
  VF_CLOUD : option string
}.
End Parsed.

(** The initial [envVars]. *)
Definition initial : EnvVars.t :=
  {| EnvVars.TIME_RANGE := "last7"; EnvVars.TOP_QUESTIONS := "10";
     EnvVars.IS_SERVER := false; EnvVars.VF_API_KEY := None;
     EnvVars.PROJECT_ID := None |}.

(** [{ ...envVars, ...overrides }] *)
Definition spread (envVars : EnvVars.t) (overrides : Overrides.t) : EnvVars.t :=
  {| EnvVars.TIME_RANGE := default (EnvVars.TIME_RANGE envVars) (Overrides.TIME_RANGE overrides);
     EnvVars.TOP_QUESTIONS :=
       default (EnvVars.TOP_QUESTIONS envVars) (Overrides.TOP_QUESTIONS overrides);
     EnvVars.IS_SERVER := default (EnvVars.IS_SERVER envVars) (Overrides.IS_SERVER overrides);
     EnvVars.VF_API_KEY :=
       match Overrides.VF_API_KEY overrides with
       | Some v => Some v
       | None => EnvVars.VF_API_KEY envVars
       end;
     EnvVars.PROJECT_ID :=
       match Overrides.PROJECT_ID overrides with
       | Some v => Some v
       | None => EnvVars.PROJECT_ID envVars
       end |}.

(** [envSchema.parse] of the object that [getConfig] builds. *)
Definition parse (process_env : ProcessEnv.t) (envVars : EnvVars.t) : exn + Parsed.t :=
  match ProcessEnv.PROJECT_ID process_env, ProcessEnv.VF_API_KEY process_env,
        ProcessEnv.OPENAI_API_KEY process_env, parse_range (EnvVars.TIME_RANGE envVars) with
  | Some project, Some key, Some openai_key, Some range =>
      inr {| Parsed.PROJECT_ID := project; Parsed.VF_API_KEY := key;
             Parsed.OPENAI_API_KEY := openai_key;
             Parsed.TOP_QUESTIONS := parseInt (EnvVars.TOP_QUESTIONS envVars);
             Parsed.TIME_RANGE := range;
             Parsed.IS_SERVER := EnvVars.IS_SERVER envVars;
             Parsed.VF_CLOUD := ProcessEnv.VF_CLOUD process_env |}
  | _, _, _, _ => inl (ZodError "Required or invalid member")
  end.

(** [getConfig]: the new [envVars], and the configuration or the error of
    the schema. *)
Definition getConfig (process_env : ProcessEnv.t) (overrides : option Overrides.t)
    (envVars : EnvVars.t) : EnvVars.t * (exn + Parsed.t) :=
  let envVars :=
    match overrides with
    | Some overrides => spread envVars overrides
    | None => envVars
    end in
  (envVars, parse process_env envVars).

(** [setEnvironmentVariables] on the two module-level variables [envVars]
    and [env]: [env] is assigned when [getConfig] returns. *)
Definition setEnvironmentVariables (process_env : ProcessEnv.t) (vars : Overrides.t)
    (state : EnvVars.t * Parsed.t) : EnvVars.t * Parsed.t * option exn :=
  match getConfig process_env (Some vars) (fst state) with
  | (envVars, inr env) => (envVars, env, None)
  | (envVars, inl e) => (envVars, snd state, Some e)
  end.

(** [getVoiceflowApiUrl] *)
Definition getVoiceflowApiUrl (env : Parsed.t) : string :=
  match Parsed.VF_CLOUD env with
  | Some cloud =>
      if String.eqb cloud "" then "https://api.voiceflow.com"
      else ("https://api." ++ cloud ++ ".voiceflow.com")%string
  | None => "https://api.voiceflow.com"
  end.

End Config.

(* ================================================================== *)
(** * [src/index.ts]: fetching the transcripts                        *)
(* ================================================================== *)

Module Ingest.

Record TranscriptSummary : Type := {
  _id : string;
  projectID : string;
  sessionID : string;
  createdAt : string
}.

(** The response of a [fetch], with the value of its JSON body. *)
Record Response (A : Type) : Type := {
  status : Z;
  statusText : string;
  json : A
}.
Arguments status {A} _.
Arguments statusText {A} _.
Arguments json {A} _.

Definition ok {A : Type} (r : Response A) : bool := (200 <=? status r) && (status r <=? 299).

Definition RANGE_MAPPING (range : TimeRange) : string :=
  match range with
  | today => "Today"
  | yesterday => "Yesterday"
  | last7 => "Last%207%20Days"
  | last30 => "Last%2030%20days"
  | alltime => "All%20time"
  | monthToDate => "Month%20to%20Date"
  end.

(** [validateVoiceflowCredentials], given what its [fetch] resolves to or
    rejects with. *)
Definition validateVoiceflowCredentials {A : Type} (response : exn + Response A) : exn + unit :=
  match response with
  | inl e => inl e
  | inr response =>
      if negb (ok response) then
        if status response =? 401 then inl (Error "Invalid Voiceflow API key")
        else if status response =? 404 then inl (Error "Invalid project ID")
        else inl (Error ("Failed to validate credentials: " ++ statusText response))
      else inr tt
  end.

(** [fetchTranscriptSummaries]: [probe] answers the request of the
    validation, [listing] the request for the range. *)
Definition fetchTranscriptSummaries {A : Type} (probe : exn + Response A)
    (listing : exn + Response (list TranscriptSummary)) : exn + list TranscriptSummary :=
  match validateVoiceflowCredentials probe with
  | inl e => inl e
  | inr _ =>
      match listing with
      | inl e => inl e
      | inr response =>
          if negb (ok response) then
            inl (Error ("Failed to fetch transcripts: " ++ statusText response))
          else inr (json response)
      end
  end.

Definition fetchTranscriptDialog (response : exn + Response (list TranscriptDialog))
  : exn + list TranscriptDialog :=
  match response with
  | inl e => inl e
  | inr response =>
      if negb (ok response) then
        inl (Error ("Failed to fetch transcript dialog: " ++ statusText response))
      else inr (json response)
  end.

(** The loop of [analyzeQuestions] over the summaries ([allDialogs] from
    the summary number [i] on): a dialog whose fetch throws is left out.
    [get i id] answers the request number [i], for the transcript [id]. *)
Fixpoint fetch_dialogs (get : nat -> string -> exn + Response (list TranscriptDialog))
    (i : nat) (summaries : list TranscriptSummary) : list (list TranscriptDialog) :=
  match summaries with
  | [] => []
  | summary :: rest =>
      match fetchTranscriptDialog (get i (_id summary)) with
      | inr dialog => dialog :: fetch_dialogs get (S i) rest
      | inl _ => fetch_dialogs get (S i) rest
      end
  end.

(** The two fetching steps of [analyzeQuestions]: what its batching part is
    given. *)
Definition fetch_all {A : Type} (probe : exn + Response A)
    (listing : exn + Response (list TranscriptSummary))
    (get : nat -> string -> exn + Response (list TranscriptDialog))
  : outcome (list (list TranscriptDialog)) :=
  match fetchTranscriptSummaries probe listing with
  | inl e => Throws e
  | inr summaries => Returns (fetch_dialogs get 0 summaries)
  end.

End Ingest.

(* ================================================================== *)
(** * The vocabulary of the properties                                *)
(* ================================================================== *)

(** What the language asks of a comparator for [sort] to have one result: the
    collation is a total preorder. *)
Record consistent (localeCompare : string -> string -> Z) : Prop := {
  collation_total : forall a b, localeCompare a b <= 0 \/ localeCompare b a <= 0;
  collation_trans :
    forall a b c, localeCompare a b <= 0 -> localeCompare b c <= 0 -> localeCompare a c <= 0
}.


(** [a] ranks before [b]: a larger count, or the same count and a question
    that the collation does not put behind. *)
Definition ranked (localeCompare : string -> string -> Z) (a b : QuestionFrequency) : Prop :=
  count b < count a
  \/ (count a = count b /\ localeCompare (question a) (question b) <= 0).


(** The merge key of a question. *)
Definition normalize (s : string) : string := trim (toLowerCase s).

(** The entries of [qs] whose question has the merge key [k]. *)
Definition mentions (k : string) (qs : list QuestionFrequency) : list QuestionFrequency :=
  List.filter (fun q => String.eqb (normalize (question q)) k) qs.

Definition sum_Z (l : list Z) : Z := fold_right Z.add 0 l.

Definition sum_counts (qs : list QuestionFrequency) : Z := sum_Z (map count qs).

(** Every entry of every batch result, in processing order. *)
Definition all_questions (dailyResults : list ClusteringResult) : list QuestionFrequency :=
  flat_map questions dailyResults.

(** A left-to-right sum of JavaScript numbers, from [0]. *)
Definition sum_float (l : list float) : float := fold_left PrimFloat.add l 0%float.

(** The component-wise sum of the usage accounts of [rs]. *)
Definition sum_usage (rs : list ClusteringResult) : Usage :=
  {| prompt_tokens := sum_Z (map (fun r => prompt_tokens (usage r)) rs);
     completion_tokens := sum_Z (map (fun r => completion_tokens (usage r)) rs);
     total_tokens := sum_Z (map (fun r => total_tokens (usage r)) rs);
     estimated_cost_usd := sum_float (map (fun r => estimated_cost_usd (usage r)) rs) |}.

(** The guard of the loop: a batch result is pushed when it has questions. *)
Definition has_questions (r : ClusteringResult) : bool :=
  match questions r with
  | [] => false
  | _ :: _ => true
  end.




(** A segment that is empty or holds white space only. *)
Fixpoint blank (s : string) : bool :=
  match s with
  | EmptyString => true
  | String c s' => isWhiteSpace c && blank s'
  end.

(** The query that a turn carries, when it is of type [request] and the
    query is a non-empty string. *)
Definition request_query (turn : TranscriptDialog) : option string :=
  if String.eqb (type turn) "request" then
    match payload (turn_payload turn) with
    | Some p =>
        match query p with
        | Some q => if String.eqb q "" then None else Some q
        | None => None
        end
    | None => None
    end
  else None.

(** A run of updates of one report, each with its clock reading, in the
    order in which they are issued. *)
Definition apply_updates (id : string) (updates : list (Z * Db.Update.t)) (db : Db.table)
  : Db.table :=
  fold_left
    (fun db '(now, update) =>
       match Db.updateReport now id update db with
       | inr db' => db'
       | inl _ => db
       end)
    updates db.


(** The message of the error that a failed credential probe raises. *)
Definition credential_message (status : Z) (statusText : string) : string :=
  if status =? 401 then "Invalid Voiceflow API key"
  else if status =? 404 then "Invalid project ID"
  else ("Failed to validate credentials: " ++ statusText)%string.

(** The questions that the batcher takes from one dialog: those of its
    turns in the window, none when no turn is in the window. *)
Definition dialog_questions (tokenize : string -> option (list string))
    (isMessageInTimeRange : string -> TimeRange -> bool) (range : TimeRange)
    (dialog : list TranscriptDialog) : list string :=
  match filterDialogsByTimeRange isMessageInTimeRange dialog range with
  | [] => []
  | filteredDialog => extractQuestions tokenize (extractTextFromDialog filteredDialog)
  end.

(** The day under which the batcher files a dialog: the date part of the
    start time of its first turn in the window. *)
Definition dialog_day (isMessageInTimeRange : string -> TimeRange -> bool)
    (range : TimeRange) (dialog : list TranscriptDialog) : option string :=
  match filterDialogsByTimeRange isMessageInTimeRange dialog range with
  | [] => None
  | firstMessage :: _ => split_T_0 <$> startTime firstMessage
  end.

(* ================================================================== *)
(** * Facts about the runtime model                                   *)
(* ================================================================== *)

Module JsFacts.

Section Sorting.
Context {A : Type} (cmp : A -> A -> Z).

Lemma sort_insert_perm (x : A) (l : list A) : sort_insert cmp x l ≡ₚ x :: l.
Proof.
  induction l as [|y l IH]; cbn; [reflexivity|].
  destruct (cmp x y <=? 0); [reflexivity|].
  rewrite IH. apply perm_swap.
Qed.

Lemma sort_perm (l : list A) : sort cmp l ≡ₚ l.
Proof.
  induction l as [|x l IH]; cbn; [reflexivity|].
  rewrite sort_insert_perm, IH. reflexivity.
Qed.

Hypothesis before_total : forall x y, before cmp x y \/ before cmp y x.
Hypothesis before_trans :
  forall x y z, before cmp x y -> before cmp y z -> before cmp x z.

Lemma sort_insert_sorted (x : A) (l : list A) :
  StronglySorted (before cmp) l -> StronglySorted (before cmp) (sort_insert cmp x l).
Proof.
  induction 1 as [|y l Hl IH Hy]; cbn.
  - repeat constructor.
  - destruct (Z.leb_spec (cmp x y) 0) as [Hxy|Hxy].
    + constructor; [constructor; assumption|].
      constructor; [exact Hxy|].
      eapply Forall_impl; [exact Hy|]. intros z Hz. eapply before_trans; eassumption.
    + constructor; [exact IH|].
      rewrite sort_insert_perm. constructor; [|exact Hy].
      destruct (before_total x y) as [H|H]; [unfold before in H; lia|exact H].
Qed.

Lemma sort_sorted (l : list A) : StronglySorted (before cmp) (sort cmp l).
Proof.
  induction l as [|x l IH]; cbn; [constructor|].
  apply sort_insert_sorted, IH.
Qed.


End Sorting.

Section Slice.
Context {A : Type}.

Lemma slice0_take (a : list A) (e : Z) : exists n, slice0 a e = take n a.
Proof. unfold slice0. eexists. reflexivity. Qed.

Lemma slice0_length (a : list A) (e : Z) :
  0 <= e -> Z.of_nat (length (slice0 a e)) <= e.
Proof.
  intros He. unfold slice0. destruct (Z.ltb_spec e 0) as [Hneg|_]; [lia|].
  rewrite length_take. lia.
Qed.

Lemma slice0_sorted (R : A -> A -> Prop) (a : list A) (e : Z) :
  StronglySorted R a -> StronglySorted R (slice0 a e).
Proof.
  intros Ha. destruct (slice0_take a e) as [n ->].
  rewrite <- (take_drop n a) in Ha. eapply StronglySorted_app_1_l. exact Ha.
Qed.

Lemma slice0_In (a : list A) (e : Z) (x : A) : In x (slice0 a e) -> In x a.
Proof.
  destruct (slice0_take a e) as [n ->]. intros Hin.
  rewrite <- (take_drop n a). apply in_or_app. left. exact Hin.
Qed.

Lemma slice0_all (a : list A) (e : Z) : Z.of_nat (length a) <= e -> slice0 a e = a.
Proof.
  intros He. unfold slice0. destruct (Z.ltb_spec e 0) as [Hneg|_]; [lia|].
  apply take_ge. lia.
Qed.

End Slice.

Section Maps.
Context {V : Type}.

Lemma Map_get_set (m : Map V) (k k' : string) (v : V) :
  Map_get (Map_set m k v) k' = if String.eqb k k' then Some v else Map_get m k'.
Proof.
  induction m as [|[k0 v0] m IH]; cbn.
  - reflexivity.
  - destruct (String.eqb_spec k0 k) as [->|Hne]; cbn.
    + destruct (String.eqb_spec k k'); reflexivity.
    + rewrite IH. destruct (String.eqb_spec k0 k') as [->|_]; [|reflexivity].
      destruct (String.eqb_spec k k'); [congruence|reflexivity].
Qed.

Lemma Map_set_keys (m : Map V) (k : string) (v : V) :
  NoDup (map fst m) -> NoDup (map fst (Map_set m k v)).
Proof.
  induction m as [|[k0 v0] m IH]; cbn; intros Hnd.
  - constructor; [intros H; inversion H|constructor].
  - destruct (String.eqb_spec k0 k) as [->|Hne]; cbn; [exact Hnd|].
    apply NoDup_cons in Hnd as [Hnotin Hnd]. apply NoDup_cons. split; [|auto].
    intros Hin. apply Hnotin. clear -Hin Hne.
    induction m as [|[k1 v1] m IH]; cbn in *.
    + apply list_elem_of_singleton in Hin. congruence.
    + destruct (String.eqb_spec k1 k) as [->|Hne1]; cbn in *; [exact Hin|].
      apply elem_of_cons in Hin as [->|Hin]; [left|right; auto].
Qed.

Lemma Map_get_elem (m : Map V) (k : string) (v : V) :
  NoDup (map fst m) -> (k, v) ∈ m <-> Map_get m k = Some v.
Proof.
  induction m as [|[k0 v0] m IH]; cbn; intros Hnd.
  - split; [intros H; inversion H|discriminate].
  - apply NoDup_cons in Hnd as [Hnotin Hnd].
    destruct (String.eqb_spec k0 k) as [->|Hne].
    + split.
      * intros Hin. apply elem_of_cons in Hin as [Heq|Hin]; [congruence|].
        exfalso. apply Hnotin. apply list_elem_of_fmap. exists (k, v). auto.
      * intros [= ->]. left.
    + rewrite <- (IH Hnd). split.
      * intros Hin. apply elem_of_cons in Hin as [Heq|Hin]; [congruence|exact Hin].
      * intros Hin. right. exact Hin.
Qed.


End Maps.

End JsFacts.

(* ================================================================== *)
(** * The report store: what create and update leave                  *)
(* ================================================================== *)

Module DbFacts.
Import Db.

Lemma updated_fields (now : Z) (update : Update.t) (row : DBReport.t) :
  DBReport.id (updated now update row) = DBReport.id row
  /\ DBReport.status (updated now update row)
     = default (DBReport.status row) (Update.status update)
  /\ DBReport.result (updated now update row)
     = match Update.result update with Some v => Some v | None => DBReport.result row end
  /\ DBReport.error (updated now update row)
     = match Update.error update with
       | Some v => if String.eqb v "" then DBReport.error row else Some v
       | None => DBReport.error row
       end
  /\ DBReport.created_at (updated now update row) = DBReport.created_at row
  /\ DBReport.updated_at (updated now update row) = now.
Proof.
  destruct update as [[st|] [res|] [err|]]; unfold updated, sets; cbn;
    try destruct (String.eqb err ""); cbn; repeat split; reflexivity.
Qed.

Lemma updateReport_present (now : Z) (id : string) (update : Update.t) (db : table)
    (row : DBReport.t) :
  db !! id = Some row ->
  exists db',
    updateReport now id update db = inr db'
    /\ db' !! id = Some (updated now update row)
    /\ (forall id', id' <> id -> db' !! id' = db !! id').
Proof.
  intros Hrow. eexists. split; [reflexivity|]. split.
  - rewrite lookup_alter_eq, Hrow. reflexivity.
  - intros id' Hne. apply lookup_alter_ne. congruence.
Qed.

Lemma updateReport_absent (now : Z) (id : string) (update : Update.t) (db : table) :
  db !! id = None -> updateReport now id update db = inr db.
Proof.
  intros Hnone. unfold updateReport. f_equal.
  apply map_eq. intros j. destruct (decide (id = j)) as [->|Hne].
  - rewrite lookup_alter_eq, Hnone. reflexivity.
  - apply lookup_alter_ne. exact Hne.
Qed.

Lemma createReport_fresh (now : Z) (id timeRange : string) (topCount : Z) (db : table) :
  db !! id = None ->
  exists report db1,
    createReport now id timeRange topCount db = inr (report, db1)
    /\ getReport id db1 = Some report
    /\ Report.status report = pending
    /\ Report.result report = None /\ Report.error report = None
    /\ Report.createdAt report = now /\ Report.updatedAt report = now
    /\ (forall id', id' <> id -> db1 !! id' = db !! id').
Proof.
  intros Hnone. unfold createReport. rewrite Hnone. do 2 eexists.
  split; [reflexivity|]. unfold getReport. rewrite lookup_insert_eq. cbn.
  repeat split. intros id' Hne. apply lookup_insert_ne. congruence.
Qed.

End DbFacts.

Section StoreClaims.
Import Db DbFacts.

(** C9, as amended: for every id absent from the report store, the update
    operation does not fail: it returns normally and leaves the store as it
    was, so the id is still absent afterwards. *)
Theorem update_of_absent_id_changes_nothing
    (now : Z) (id : string) (update : Update.t) (db : table) :
  db !! id = None ->
  updateReport now id update db = inr db /\ getReport id db = None.
Proof.
  intros Hnone. split.
  - apply updateReport_absent. exact Hnone.
  - unfold getReport. rewrite Hnone. reflexivity.
Qed.

Lemma update_of_absent_id_changes_nothing_witness :
  let update := {| Update.status := Some failed; Update.result := None;
                   Update.error := Some "boom" |} in
  (∅ : table) !! "r-404" = None
  /\ updateReport 7 "r-404" update ∅ = inr ∅ /\ getReport "r-404" (∅ : table) = None.
Proof.
  split; [reflexivity|].
  apply (update_of_absent_id_changes_nothing 7 "r-404" _ ∅). reflexivity.
Defined.

(** C9, as stated, fails: an update of an absent id raises no error. *)
Lemma update_of_absent_id_does_not_fail :
  ~ (forall (now : Z) (id : string) (update : Update.t) (db : table),
        db !! id = None -> exists e, updateReport now id update db = inl e).
Proof.
  intros H.
  destruct (H 0 "r-404"
              {| Update.status := Some completed; Update.result := None;
                 Update.error := None |} ∅ (lookup_empty _)) as [e He].
  discriminate He.
Qed.



Lemma createReport_inr (now : Z) (id timeRange : string) (topCount : Z)
    (db db1 : table) (created : Report.t) :
  createReport now id timeRange topCount db = inr (created, db1) ->
  db !! id = None.
Proof.
  unfold createReport. destruct (db !! id); [discriminate|reflexivity].
Qed.

(** C7, as amended: for every report reachable through create followed by at
    most one update, where the update is one of the orchestrator's two writes
    with a truthy payload (completed with a result, or failed with an error
    message that is not empty) and the clock has not run backwards between
    the two calls, updatedAt is at least createdAt, a pending report carries
    neither a result nor an error, and a terminal report carries exactly one
    of the two. *)
Theorem orchestrated_report_is_well_formed (r : Report.t) :
  reachable terminal_write r -> well_formed r.
Proof.
  intros Hreach. inversion Hreach as
    [db db1 t0 id timeRange topCount created r0 Hcreate Hget
    |db db1 db2 t0 t1 id timeRange topCount created r0 update Hcreate Hallowed Hupdate Hget];
    subst r0.
  - pose proof (createReport_inr _ _ _ _ _ _ _ Hcreate) as Hnone.
    destruct (createReport_fresh t0 id timeRange topCount db Hnone)
      as (report & db1' & Hcreate' & Hget' & Hst & Hres & Herr & Hc & Hu & _).
    rewrite Hcreate in Hcreate'. injection Hcreate' as <- <-.
    rewrite Hget in Hget'. injection Hget' as <-.
    unfold well_formed. rewrite Hst, Hres, Herr, Hc, Hu.
    split; [lia|]. split; [auto|]. intros Hne. contradiction.
  - pose proof (createReport_inr _ _ _ _ _ _ _ Hcreate) as Hnone.
    unfold createReport in Hcreate. rewrite Hnone in Hcreate.
    injection Hcreate as _ <-.
    match type of Hupdate with
    | updateReport _ _ _ (<[_ := ?row]> _) = _ =>
        destruct (updateReport_present t1 id update (<[id := row]> db) row
                    (lookup_insert_eq _ _ _)) as (db2' & Hupdate' & Hrow' & _);
        destruct (updated_fields t1 update row) as (_ & Hst & Hres & Herr & Hcr & Hupd)
    end.
    rewrite Hupdate in Hupdate'. injection Hupdate' as <-.
    unfold getReport in Hget. rewrite Hrow' in Hget. injection Hget as <-.
    unfold well_formed, exactly_one_payload. cbn.
    rewrite Hst, Hres, Herr, Hcr, Hupd. cbn.
    destruct Hallowed as [Hclock [[result ->]|[message [Hmsg ->]]]]; cbn.
    + split; [exact Hclock|]. split; [discriminate|]. intros _. left. eauto.
    + split; [exact Hclock|]. split; [discriminate|]. intros _. right.
      destruct (String.eqb_spec message ""); [contradiction|]. eauto.
Qed.

Lemma orchestrated_report_is_well_formed_witness :
  well_formed
    {| Report.id := "r-1"; Report.status := failed; Report.timeRange := "last7";
       Report.topCount := 5; Report.result := None;
       Report.error := Some "Invalid project ID";
       Report.createdAt := 3; Report.updatedAt := 8 |}.
Proof.
  apply orchestrated_report_is_well_formed.
  eapply (reachable_updated terminal_write ∅ _ _ 3 8 "r-1" "last7" 5 _ _
            {| Update.status := Some failed; Update.result := None;
               Update.error := Some "Invalid project ID" |}).
  - reflexivity.
  - split; [lia|]. right. exists "Invalid project ID". split; [discriminate|reflexivity].
  - reflexivity.
  - unfold getReport. rewrite lookup_alter_eq, lookup_insert_eq. reflexivity.
Defined.

(** C7, as stated, fails: create followed by the update
    [{status: 'failed', error: ''}] (the orchestrator's write for an error
    whose message is empty) leaves a terminal report that carries neither a
    result nor an error. *)
Lemma failed_report_without_error_is_reachable :
  ~ (forall r : Report.t, reachable any_update r -> well_formed r).
Proof.
  intros H.
  assert (Hreach : reachable any_update
            {| Report.id := "r-1"; Report.status := failed; Report.timeRange := "last7";
               Report.topCount := 5; Report.result := None; Report.error := None;
               Report.createdAt := 3; Report.updatedAt := 8 |}).
  { eapply (reachable_updated any_update ∅ _ _ 3 8 "r-1" "last7" 5 _ _
              {| Update.status := Some failed; Update.result := None;
                 Update.error := Some "" |}).
    - reflexivity.
    - unfold any_update. lia.
    - reflexivity.
    - unfold getReport. rewrite lookup_alter_eq, lookup_insert_eq. reflexivity. }
  destruct (H _ Hreach) as (_ & _ & Hterminal).
  destruct (Hterminal ltac:(discriminate)) as [[[x Hx] _]|[_ [x Hx]]]; discriminate.
Qed.

End StoreClaims.

(* ================================================================== *)
(** * The orchestrator: a failed credential probe                      *)
(* ================================================================== *)

Section HandlerClaims.
Import Db DbFacts Server.

(** C1 does not hold of the handler: whenever the credential probe answers
    with a status outside 200..299, for a well-formed query and a fresh
    report id, the submission does fail synchronously ([next(error)], no
    report id in the reply, no analysis started), but the pending row of that
    id has been inserted before the probe and stays in the store. *)
Theorem failed_probe_leaves_pending_report
    (now : Z) (reportId : string) (query : Query) (testRequest : Response)
    (db : table) (timeRange : TimeRange) :
  parse_range (default "last7" (range query)) = Some timeRange ->
  db !! reportId = None ->
  ok testRequest = false ->
  exists db1 e report,
    analyzeHandler now reportId query (inr testRequest) db = (db1, next e, None)
    /\ getReport reportId db1 = Some report
    /\ Report.status report = pending
    /\ Report.result report = None /\ Report.error report = None.
Proof.
  intros Hrange Hfresh Hok. unfold analyzeHandler. rewrite Hrange.
  destruct (createReport_fresh now reportId (default "last7" (range query))
              (default 10 (top query)) db Hfresh)
    as (report & db1 & Hcreate & Hget & Hst & Hres & Herr & _).
  rewrite Hcreate, Hok. cbn.
  destruct (status testRequest =? 401); [|destruct (status testRequest =? 404)];
    do 3 eexists; (split; [reflexivity|]); eauto.
Qed.

Lemma failed_probe_leaves_pending_report_witness :
  exists db1 e report,
    analyzeHandler 3 "r-1" {| range := Some "last7"; top := Some 5 |}
      (inr {| status := 401; statusText := "Unauthorized" |}) ∅
    = (db1, next e, None)
    /\ getReport "r-1" db1 = Some report
    /\ Report.status report = pending
    /\ Report.result report = None /\ Report.error report = None.
Proof.
  apply (failed_probe_leaves_pending_report 3 "r-1"
           {| range := Some "last7"; top := Some 5 |}
           {| status := 401; statusText := "Unauthorized" |} ∅ last7);
    reflexivity.
Defined.

End HandlerClaims.

(* ================================================================== *)
(** * The cluster engine and the aggregator: order and truncation     *)
(* ================================================================== *)

Section Ranking.
Import JsFacts.
Variable localeCompare : string -> string -> Z.

Lemma before_ranked (a b : QuestionFrequency) :
  before (compareFrequency localeCompare) a b <-> ranked localeCompare a b.
Proof.
  unfold before, compareFrequency, ranked.
  destruct (Z.eqb_spec (count a) (count b)) as [Heq|Hne]; cbn; lia.
Qed.

Lemma ranked_total :
  consistent localeCompare -> forall a b, ranked localeCompare a b \/ ranked localeCompare b a.
Proof.
  intros [Htotal _] a b. unfold ranked.
  destruct (Z.lt_trichotomy (count a) (count b)) as [H|[H|H]]; [right; left; lia| |left; left; lia].
  destruct (Htotal (question a) (question b)); [left|right]; right; split; auto.
Qed.

Lemma ranked_trans :
  consistent localeCompare ->
  forall a b c, ranked localeCompare a b -> ranked localeCompare b c -> ranked localeCompare a c.
Proof.
  intros [_ Htrans] a b c [Hab|[Hab Hlab]] [Hbc|[Hbc Hlbc]]; unfold ranked;
    [left; lia|left; lia|left; lia|].
  right. split; [congruence|]. eapply Htrans; eassumption.
Qed.





End Ranking.

Section TopLists.
Variable localeCompare : string -> string -> Z.
Variable JSON_parse : string -> string + json.
Variable tokenize : string -> option (list string).
Variable isMessageInTimeRange : string -> TimeRange -> bool.
Variable create : nat -> Z -> list string -> outcome OpenAI.ChatCompletion.
Hypothesis collation : consistent localeCompare.






End TopLists.

Module SampleFacts.
Import Sample.

Lemma codeCompare_le (a b : string) :
  codeCompare a b <= 0 <-> a = b \/ String_as_OT.lt a b.
Proof.
  unfold codeCompare.
  destruct (String_as_OT.compare_spec a b) as [Heq|Hlt|Hgt].
  - split; [auto|lia].
  - split; [auto|lia].
  - split; [lia|]. intros [->|Hlt]; exfalso.
    + exact (StrictOrder_Irreflexive b Hgt).
    + exact (StrictOrder_Irreflexive a (transitivity Hlt Hgt)).
Qed.

Lemma codeCompare_consistent : consistent codeCompare.
Proof.
  split.
  - intros a b. rewrite !codeCompare_le.
    destruct (String_as_OT.compare_spec a b); auto.
  - intros a b c. rewrite !codeCompare_le.
    intros [->|Hab] [->|Hbc]; auto. right. etransitivity; eassumption.
Qed.


End SampleFacts.

Section CompletedReports.
Import Db DbFacts Server.




End CompletedReports.

(* ================================================================== *)
(** * The aggregator: merging and summing                             *)
(* ================================================================== *)

Section Aggregator.
Import JsFacts.



Lemma frequencies_flat (dailyResults : list ClusteringResult) :
  frequencies dailyResults = fold_left add_question (all_questions dailyResults) [].
Proof.
  unfold frequencies, all_questions. generalize (@nil (string * Z)).
  induction dailyResults as [|r rs IH]; intros m; cbn; [reflexivity|].
  rewrite fold_left_app. apply IH.
Qed.

Lemma get_add_question (m : Map Z) (q : QuestionFrequency) (k : string) :
  Map_get (add_question m q) k
  = if String.eqb (normalize (question q)) k
    then Some (default 0 (Map_get m (normalize (question q))) + count q)
    else Map_get m k.
Proof. unfold add_question. apply Map_get_set. Qed.

Lemma get_add_questions (qs : list QuestionFrequency) (m : Map Z) (k : string) :
  Map_get (fold_left add_question qs m) k
  = match mentions k qs with
    | [] => Map_get m k
    | _ :: _ => Some (default 0 (Map_get m k) + sum_counts (mentions k qs))
    end.
Proof.
  revert m. induction qs as [|q qs IH]; intros m; [reflexivity|].
  change (fold_left add_question (q :: qs) m)
    with (fold_left add_question qs (add_question m q)).
  rewrite IH, get_add_question.
  assert (Hm : mentions k (q :: qs)
               = if String.eqb (normalize (question q)) k
                 then q :: mentions k qs else mentions k qs) by reflexivity.
  rewrite Hm. destruct (String.eqb_spec (normalize (question q)) k) as [Heq|Hne].
  - subst k. destruct (mentions (normalize (question q)) qs) as [|q' l];
      unfold sum_counts, sum_Z; cbn [map fold_right default]; f_equal.
    all: unfold id; generalize (default 0 (Map_get m (normalize (question q)))); intros d.
    all: lia.
  - reflexivity.
Qed.

Lemma add_questions_keys (qs : list QuestionFrequency) (m : Map Z) :
  NoDup (map fst m) -> NoDup (map fst (fold_left add_question qs m)).
Proof.
  revert m. induction qs as [|q qs IH]; intros m Hm; cbn; [exact Hm|].
  apply IH. unfold add_question. apply Map_set_keys, Hm.
Qed.

Lemma frequencies_get (dailyResults : list ClusteringResult) (k : string) :
  Map_get (frequencies dailyResults) k
  = match mentions k (all_questions dailyResults) with
    | [] => None
    | l => Some (sum_counts l)
    end.
Proof.
  rewrite frequencies_flat, get_add_questions. cbn.
  destruct (mentions k (all_questions dailyResults)); [reflexivity|]. f_equal.
Qed.

Lemma frequencies_keys (dailyResults : list ClusteringResult) :
  NoDup (map fst (frequencies dailyResults)).
Proof. rewrite frequencies_flat. apply add_questions_keys. constructor. Qed.


Lemma fold_add_usage (rs : list ClusteringResult) (u : Usage) :
  prompt_tokens (fold_left add_usage rs u)
  = prompt_tokens u + sum_Z (map (fun r => prompt_tokens (usage r)) rs)
  /\ completion_tokens (fold_left add_usage rs u)
     = completion_tokens u + sum_Z (map (fun r => completion_tokens (usage r)) rs)
  /\ total_tokens (fold_left add_usage rs u)
     = total_tokens u + sum_Z (map (fun r => total_tokens (usage r)) rs)
  /\ estimated_cost_usd (fold_left add_usage rs u)
     = fold_left PrimFloat.add (map (fun r => estimated_cost_usd (usage r)) rs)
         (estimated_cost_usd u).
Proof.
  unfold sum_Z. revert u.
  induction rs as [|r rs IH]; intros u; cbn [map fold_left fold_right].
  - repeat split; lia.
  - destruct (IH (add_usage u r)) as (-> & -> & -> & ->).
    unfold add_usage; cbn [prompt_tokens completion_tokens total_tokens estimated_cost_usd].
    repeat split; lia.
Qed.

(** The usage of the aggregate is the component-wise sum over the results
    it is given. *)
Lemma combineResults_usage (localeCompare : string -> string -> Z) (env : Env)
    (dailyResults : list ClusteringResult) :
  usage (combineResults localeCompare env dailyResults) = sum_usage dailyResults.
Proof.
  cbn. destruct (fold_add_usage dailyResults zero_usage) as (H1 & H2 & H3 & H4).
  destruct (fold_left add_usage dailyResults zero_usage) as [p c t e]. cbn in *.
  unfold sum_usage, sum_float. subst. reflexivity.
Qed.

End Aggregator.

Section Merging.
Import JsFacts.

(** The entries that the aggregator sorts: one per key of the frequency map. *)
Lemma combined_entry (dailyResults : list ClusteringResult) (e : QuestionFrequency) :
  In e (map (fun '(question, count) => {| question := question; count := count |})
          (frequencies dailyResults)) ->
  Map_get (frequencies dailyResults) (question e) = Some (count e).
Proof.
  intros Hin. apply in_map_iff in Hin as ([k v] & <- & Hin). cbn.
  apply Map_get_elem; [apply frequencies_keys|]. apply list_elem_of_In, Hin.
Qed.

Lemma combineResults_In (localeCompare : string -> string -> Z) (env : Env)
    (dailyResults : list ClusteringResult) (e : QuestionFrequency) :
  In e (questions (combineResults localeCompare env dailyResults)) ->
  Map_get (frequencies dailyResults) (question e) = Some (count e).
Proof.
  intros Hin. cbn in Hin. apply slice0_In in Hin.
  apply combined_entry. eapply Permutation_in; [apply sort_perm|exact Hin].
Qed.






End Merging.

(* ================================================================== *)
(** * Usage accounting over the batches of a job                      *)
(* ================================================================== *)

Section UsageAccounting.
Variable localeCompare : string -> string -> Z.
Variable JSON_parse : string -> string + json.
Variable tokenize : string -> option (list string).
Variable isMessageInTimeRange : string -> TimeRange -> bool.
Variable create : nat -> Z -> list string -> outcome OpenAI.ChatCompletion.

Lemma process_days_batch_results (env : Env) (dailyQuestions : list DailyQuestions.t)
    (dailyResults : list ClusteringResult) (n : nat) :
  process_days localeCompare JSON_parse create env dailyQuestions dailyResults n
  = match batch_results localeCompare JSON_parse create env dailyQuestions n with
    | Returns (rs, n') => Returns ((dailyResults ++ List.filter has_questions rs)%list, n')
    | Throws e => Throws e
    | IllTyped => IllTyped
    end.
Proof.
  revert dailyResults n.
  induction dailyQuestions as [|day rest IH]; intros dailyResults n; cbn.
  - unfold ret. rewrite app_nil_r. reflexivity.
  - unfold bind, ret.
    destruct (processDailyBatch _ _ _ env (DailyQuestions.questions day) n)
      as [[result n1]| |]; [|reflexivity|reflexivity].
    rewrite IH.
    destruct (batch_results localeCompare JSON_parse create env rest n1)
      as [[rs n2]| |]; [|reflexivity|reflexivity].
    cbn [List.filter]. unfold has_questions at 2.
    destruct (questions result); [reflexivity|].
    rewrite <- app_assoc. reflexivity.
Qed.

Lemma process_days_app (env : Env) (before rest : list DailyQuestions.t)
    (dailyResults : list ClusteringResult) (n : nat) :
  process_days localeCompare JSON_parse create env (before ++ rest)%list dailyResults n
  = match batch_results localeCompare JSON_parse create env before n with
    | Returns (rs, n') =>
        process_days localeCompare JSON_parse create env rest
          (dailyResults ++ List.filter has_questions rs)%list n'
    | Throws e => Throws e
    | IllTyped => IllTyped
    end.
Proof.
  revert dailyResults n.
  induction before as [|day before IH]; intros dailyResults n; cbn.
  - unfold ret. rewrite app_nil_r. reflexivity.
  - unfold bind, ret.
    destruct (processDailyBatch _ _ _ env (DailyQuestions.questions day) n)
      as [[result n1]| |]; [|reflexivity|reflexivity].
    rewrite IH.
    destruct (batch_results localeCompare JSON_parse create env before n1)
      as [[rs n2]| |]; [|reflexivity|reflexivity].
    cbn [List.filter].
    assert (Hq : has_questions result
                 = match questions result with [] => false | _ :: _ => true end)
      by reflexivity.
    rewrite Hq. destruct (questions result); [reflexivity|].
    rewrite <- app_assoc. reflexivity.
Qed.

Lemma not_today (range : TimeRange) : range <> today -> TimeRange_eqb range today = false.
Proof. destruct range; [contradiction|reflexivity..]. Qed.

(** C3, as amended: when every batch of a job is processed, the usage
    account of the final result is the component-wise sum of the usage
    accounts of the batches whose clustered question list is not empty (a
    batch without clustered questions is left out of the sum); for the range
    today there is one batch and its result, usage included, is the final
    result. *)
Theorem usage_sums_the_batches_with_questions
    (env : Env) (allDialogs : list (list TranscriptDialog)) (n : nat) :
  (forall rs n',
      TIME_RANGE env <> today ->
      batch_results localeCompare JSON_parse create env
        (groupQuestionsByDate localeCompare tokenize isMessageInTimeRange allDialogs
           (TIME_RANGE env)) n = Returns (rs, n') ->
      exists r,
        analyzeQuestions localeCompare JSON_parse tokenize isMessageInTimeRange create
          env (Returns allDialogs) n = Returns (r, n')
        /\ usage r = sum_usage (List.filter has_questions rs))
  /\ (TIME_RANGE env = today ->
      exists batch,
        analyzeQuestions localeCompare JSON_parse tokenize isMessageInTimeRange create
          env (Returns allDialogs) n
        = processDailyBatch localeCompare JSON_parse create env batch n).
Proof.
  split.
  - intros rs n' Hrange Hbatches. unfold analyzeQuestions, bind at 1, lift.
    rewrite (not_today _ Hrange). unfold bind, ret.
    rewrite process_days_batch_results, Hbatches. cbn [app].
    eexists. split; [reflexivity|]. apply combineResults_usage.
  - intros Hrange. unfold analyzeQuestions, bind at 1, lift. rewrite Hrange. cbn.
    eexists. reflexivity.
Qed.

End UsageAccounting.

Lemma usage_sums_the_batches_with_questions_witness :
  let env := {| TIME_RANGE := last7; TOP_QUESTIONS := 10; IS_SERVER := true |} in
  let usage350 :=
    Some {| OpenAI.prompt_tokens := 350; OpenAI.completion_tokens := 80;
            OpenAI.total_tokens := 430 |} in
  exists r,
    analyzeQuestions Sample.codeCompare Sample.parse Sample.tokenize
      Sample.isMessageInTimeRange (Sample.answer (Some Sample.two_clusters_text) usage350)
      env (Returns Sample.one_dialog) 0%nat = Returns (r, 1%nat)
    /\ usage r = sum_usage (List.filter has_questions [Sample.batch 350 80]).
Proof.
  intros env usage350.
  apply (usage_sums_the_batches_with_questions Sample.codeCompare Sample.parse
           Sample.tokenize Sample.isMessageInTimeRange
           (Sample.answer (Some Sample.two_clusters_text) usage350)
           env Sample.one_dialog 0%nat).
  - discriminate.
  - vm_compute. reflexivity.
Defined.

(** C3, as stated, fails: a batch whose reply holds an empty cluster list is
    not pushed, and the tokens that its reply reports are missing from the
    final usage account. *)
Lemma usage_of_a_batch_without_questions_is_dropped :
  ~ (forall (env : Env) (allDialogs : list (list TranscriptDialog)) n rs n' r,
        let create :=
          Sample.answer (Some Sample.no_clusters_text)
            (Some {| OpenAI.prompt_tokens := 350; OpenAI.completion_tokens := 80;
                     OpenAI.total_tokens := 430 |}) in
        TIME_RANGE env <> today ->
        batch_results Sample.codeCompare Sample.parse create env
          (groupQuestionsByDate Sample.codeCompare Sample.tokenize
             Sample.isMessageInTimeRange allDialogs (TIME_RANGE env)) n
        = Returns (rs, n') ->
        analyzeQuestions Sample.codeCompare Sample.parse Sample.tokenize
          Sample.isMessageInTimeRange create env (Returns allDialogs) n = Returns (r, n') ->
        usage r = sum_usage rs).
Proof.
  intros H.
  pose (env := {| TIME_RANGE := last7; TOP_QUESTIONS := 10; IS_SERVER := true |}).
  specialize (H env Sample.one_dialog 0%nat).
  specialize (H [{| questions := [];
                    usage :=
                      {| prompt_tokens := 350; completion_tokens := 80;
                         total_tokens := 430;
                         estimated_cost_usd :=
                           estimated_cost
                             {| OpenAI.prompt_tokens := 350; OpenAI.completion_tokens := 80;
                                OpenAI.total_tokens := 430 |} |} |}]
                1%nat empty_result).
  cbv zeta in H.
  assert (Hp : prompt_tokens (usage empty_result) = 350).
  { rewrite H; [reflexivity|discriminate|vm_compute; reflexivity|vm_compute; reflexivity]. }
  discriminate Hp.
Qed.

(* ================================================================== *)
(** * Malformed replies of the completion service                     *)
(* ================================================================== *)

Section MalformedReplies.
Import Db DbFacts Server.
Variable localeCompare : string -> string -> Z.
Variable JSON_parse : string -> string + json.
Variable tokenize : string -> option (list string).
Variable isMessageInTimeRange : string -> TimeRange -> bool.
Variable create : nat -> Z -> list string -> outcome OpenAI.ChatCompletion.



End MalformedReplies.



(* ================================================================== *)
(** * The question extractor                                          *)
(* ================================================================== *)

Section Extractor.
Variable tokenize : string -> option (list string).

Lemma trimEnd_blank (s : string) : trimEnd s = "" <-> blank s = true.
Proof.
  induction s as [|c s IH]; cbn; [tauto|].
  destruct (trimEnd s) as [|c' r].
  - destruct (isWhiteSpace c); cbn; [tauto|]. split; discriminate.
  - split; [discriminate|]. intros H. apply andb_true_iff in H as [_ H].
    apply IH in H. discriminate.
Qed.

Lemma trimStart_blank (s : string) : blank (trimStart s) = blank s.
Proof.
  induction s as [|c s IH]; cbn; [reflexivity|].
  destruct (isWhiteSpace c) eqn:E; cbn; [exact IH|]. rewrite E. reflexivity.
Qed.

Lemma trim_blank (s : string) : String.eqb (trim s) "" = blank s.
Proof.
  unfold trim. destruct (String.eqb_spec (trimEnd (trimStart s)) "") as [H|H].
  - apply trimEnd_blank in H. rewrite trimStart_blank in H. auto.
  - destruct (blank s) eqn:E; [|reflexivity]. exfalso. apply H.
    apply trimEnd_blank. rewrite trimStart_blank. exact E.
Qed.

Lemma is_request_with_query_spec (turn : TranscriptDialog) :
  is_request_with_query turn = true <-> request_query turn = Some (query_text turn).
Proof.
  unfold is_request_with_query, request_query, query_text, truthy.
  destruct (String.eqb (type turn) "request"); cbn; [|split; discriminate].
  destruct (payload (turn_payload turn)) as [p|]; cbn; [|split; discriminate].
  destruct (query p) as [q|]; cbn; [|split; discriminate].
  destruct (String.eqb q ""); cbn; split; auto; discriminate.
Qed.

Lemma request_query_text (turn : TranscriptDialog) (q : string) :
  request_query turn = Some q -> q = query_text turn /\ q <> "".
Proof.
  unfold request_query, query_text.
  destruct (String.eqb (type turn) "request"); [|discriminate].
  destruct (payload (turn_payload turn)) as [p|]; [|discriminate]. cbn.
  destruct (query p) as [q'|]; [|discriminate].
  destruct (String.eqb_spec q' ""); [discriminate|]. intros [= <-]. auto.
Qed.

Lemma filter_sublist {A : Type} (f : A -> bool) (l : list A) :
  List.filter f l `sublist_of` l.
Proof.
  induction l as [|x l IH]; cbn; [constructor|].
  destruct (f x); constructor; exact IH.
Qed.

Lemma request_query_None (turn : TranscriptDialog) :
  request_query turn = None <-> is_request_with_query turn = false.
Proof.
  split.
  - intros Hnone. destruct (is_request_with_query turn) eqn:E; [|reflexivity].
    apply is_request_with_query_spec in E. congruence.
  - intros Hfalse. destruct (request_query turn) as [q|] eqn:E; [|reflexivity].
    destruct (request_query_text turn q E) as [-> _].
    apply is_request_with_query_spec in E. congruence.
Qed.

Lemma kept_queries (dialog : list TranscriptDialog) :
  map query_text (List.filter is_request_with_query dialog) = omap request_query dialog.
Proof.
  induction dialog as [|turn rest IH]; cbn; [reflexivity|].
  destruct (is_request_with_query turn) eqn:E.
  - apply is_request_with_query_spec in E. rewrite E. cbn. f_equal. exact IH.
  - apply request_query_None in E. rewrite E. exact IH.
Qed.

(** C8: the extractor keeps exactly the turns of type [request] that carry
    a non-empty query, in turn order; the text is empty when there is none,
    a turn that is not kept adds nothing, and a kept turn puts its query in
    front, followed by a space when another kept turn comes after it; the
    questions are the segments the tokenizer finds in that text, in their
    order, without those that are empty or hold white space only. *)
Theorem extractor_keeps_request_queries_and_drops_blank_segments
    (dialog : list TranscriptDialog) :
  let kept := List.filter is_request_with_query dialog in
  let text := extractTextFromDialog dialog in
  let segments := default [] (tokenize text) in
  (forall turn,
      In turn kept <->
      In turn dialog /\ type turn = "request"
      /\ exists q, (payload (turn_payload turn) ≫= query) = Some q /\ q <> "")
  /\ kept `sublist_of` dialog
  /\ text = join " " (omap request_query dialog)
  /\ extractTextFromDialog [] = ""
  /\ (forall turn rest,
         request_query turn = None ->
         extractTextFromDialog (turn :: rest) = extractTextFromDialog rest)
  /\ (forall turn rest q,
         request_query turn = Some q ->
         extractTextFromDialog (turn :: rest)
         = match omap request_query rest with
           | [] => q
           | _ :: _ => (q ++ " " ++ extractTextFromDialog rest)%string
           end)
  /\ extractQuestions tokenize text `sublist_of` segments
  /\ (forall s, In s (extractQuestions tokenize text) <-> In s segments /\ blank s = false).
Proof.
  intros kept text segments. subst kept text segments.
  split; [|split; [|split; [|split; [|split; [|split; [|split]]]]]].
  - intros turn. rewrite filter_In. unfold is_request_with_query, truthy.
    split.
    + intros [Hin Hkeep]. apply andb_true_iff in Hkeep as [Htype Hquery].
      split; [exact Hin|]. split; [apply String.eqb_eq, Htype|].
      destruct (payload (turn_payload turn) ≫= query) as [q|]; [|discriminate].
      exists q. split; [reflexivity|].
      destruct (String.eqb_spec q ""); [discriminate|assumption].
    + intros (Hin & Htype & q & Hq & Hne). split; [exact Hin|].
      apply andb_true_iff. split; [apply String.eqb_eq, Htype|].
      rewrite Hq. destruct (String.eqb_spec q ""); [contradiction|reflexivity].
  - apply filter_sublist.
  - unfold extractTextFromDialog. rewrite kept_queries. reflexivity.
  - reflexivity.
  - intros turn rest Hnone. apply request_query_None in Hnone.
    unfold extractTextFromDialog. cbn [List.filter]. rewrite Hnone. reflexivity.
  - intros turn rest q Hq. destruct (request_query_text turn q Hq) as [-> _].
    apply is_request_with_query_spec in Hq.
    unfold extractTextFromDialog. cbn [List.filter]. rewrite Hq. cbn [map].
    rewrite kept_queries.
    destruct (omap request_query rest); reflexivity.
  - apply filter_sublist.
  - intros s0. unfold extractQuestions, drop_blank_segments.
    rewrite filter_In, trim_blank. destruct (blank s0); cbn; intuition congruence.
Qed.

End Extractor.

(** With a tokenizer that returns three segments, the one of white space
    only and the empty one are dropped. *)
Lemma extractor_drops_blank_segments_example :
  extractQuestions (fun _ => Some ["How do I reset my password?"; "   "; ""])
    (extractTextFromDialog
       [Sample.turn "request" None (Some "How do I reset my password?");
        Sample.turn "launch" None None])
  = ["How do I reset my password?"].
Proof. reflexivity. Qed.

(* ================================================================== *)
(** * More of the report store                                        *)
(* ================================================================== *)

Section StoreOperations.
Import Db DbFacts.

(** X1: a report created under a fresh id is read back as it was returned:
    pending, with the range label, the top count and both time stamps at the
    clock reading, and no payload; every other id reads as before.  Under an
    id that is taken the insert is refused with an error and no table is
    returned. *)
Theorem created_report_is_read_back
    (now : Z) (id timeRange : string) (topCount : Z) (db : table) :
  match db !! id with
  | Some _ => exists e, createReport now id timeRange topCount db = inl e
  | None =>
      exists db1,
        let report :=
          {| Report.id := id; Report.status := pending; Report.timeRange := timeRange;
             Report.topCount := topCount; Report.result := None; Report.error := None;
             Report.createdAt := now; Report.updatedAt := now |} in
        createReport now id timeRange topCount db = inr (report, db1)
        /\ getReport id db1 = Some report
        /\ (forall id', id' <> id -> getReport id' db1 = getReport id' db)
  end.
Proof.
  unfold createReport. destruct (db !! id) eqn:Hid; [eauto|].
  eexists. split; [reflexivity|]. unfold getReport. split.
  - rewrite lookup_insert_eq. reflexivity.
  - intros id' Hne. rewrite lookup_insert_ne by congruence. reflexivity.
Qed.

(** X2: an update changes no row but the one of its id, adds none and
    removes none, and leaves the id, the range label, the top count and
    the creation time of that row as they were. *)
Theorem update_touches_one_row_only
    (now : Z) (id : string) (update : Update.t) (db : table) :
  exists db',
    updateReport now id update db = inr db'
    /\ dom db' = dom db
    /\ (forall id', id' <> id -> db' !! id' = db !! id')
    /\ (forall row,
           db !! id = Some row ->
           exists row',
             db' !! id = Some row'
             /\ DBReport.id row' = DBReport.id row
             /\ DBReport.time_range row' = DBReport.time_range row
             /\ DBReport.top_count row' = DBReport.top_count row
             /\ DBReport.created_at row' = DBReport.created_at row).
Proof.
  eexists. split; [reflexivity|]. split; [apply dom_alter_L|]. split.
  - intros id' Hne. apply lookup_alter_ne. congruence.
  - intros row Hrow. rewrite lookup_alter_eq, Hrow. eexists. split; [reflexivity|].
    fold (updated now update row).
    destruct update as [[st|] [res|] [err|]]; unfold updated, sets; cbn;
      try destruct (String.eqb err ""); cbn; auto.
Qed.

Lemma updated_keeps_payload (now : Z) (update : Update.t) (row : DBReport.t) :
  (is_Some (DBReport.result row) -> is_Some (DBReport.result (updated now update row)))
  /\ (is_Some (DBReport.error row) -> is_Some (DBReport.error (updated now update row))).
Proof.
  destruct (updated_fields now update row) as (_ & _ & Hres & Herr & _).
  rewrite Hres, Herr. split; intros H.
  - destruct (Update.result update); eauto.
  - destruct (Update.error update) as [v|]; [destruct (String.eqb v "")|]; eauto.
Qed.

Lemma apply_updates_lookup (id : string) (updates : list (Z * Update.t)) (db : table)
    (row : DBReport.t) :
  db !! id = Some row ->
  exists row',
    apply_updates id updates db !! id = Some row'
    /\ (is_Some (DBReport.result row) -> is_Some (DBReport.result row'))
    /\ (is_Some (DBReport.error row) -> is_Some (DBReport.error row')).
Proof.
  revert db row. induction updates as [|[now update] updates IH]; intros db row Hrow.
  - exists row. cbn. auto.
  - cbn. destruct (IH (alter (fun row => fold_left assign (sets now update) row) id db)
                     (updated now update row)) as (row' & Hrow' & Hres & Herr).
    { rewrite lookup_alter_eq, Hrow. reflexivity. }
    destruct (updated_keeps_payload now update row) as [Hres0 Herr0].
    exists row'. split; [exact Hrow'|]. split; auto.
Qed.

(** X3: no update ever clears a payload: once the row of a report holds a
    result (or an error), it holds one after every further run of updates of
    that report.  So an update to completed after an update to failed leaves
    a completed report that still carries the error. *)
Theorem updates_never_clear_a_payload
    (id : string) (updates : list (Z * Update.t)) (db : table) (report : Report.t) :
  getReport id db = Some report ->
  exists report',
    getReport id (apply_updates id updates db) = Some report'
    /\ (is_Some (Report.result report) -> is_Some (Report.result report'))
    /\ (is_Some (Report.error report) -> is_Some (Report.error report')).
Proof.
  unfold getReport. destruct (db !! id) as [row|] eqn:Hrow; [|discriminate].
  intros [= <-]. destruct (apply_updates_lookup id updates db row Hrow)
    as (row' & -> & Hres & Herr).
  eexists. split; [reflexivity|]. cbn. auto.
Qed.

Lemma updates_never_clear_a_payload_witness :
  let failed_first :=
    {[ "r-1" := {| DBReport.id := "r-1"; DBReport.status := failed;
                   DBReport.time_range := "last7"; DBReport.top_count := 5;
                   DBReport.result := None; DBReport.error := Some "boom";
                   DBReport.created_at := 3; DBReport.updated_at := 5 |} ]} in
  exists report',
    getReport "r-1"
      (apply_updates "r-1"
         [(8, {| Update.status := Some completed; Update.result := Some empty_result;
                 Update.error := None |})] failed_first) = Some report'
    /\ is_Some (Report.error report').
Proof.
  intros failed_first.
  destruct (updates_never_clear_a_payload "r-1"
              [(8, {| Update.status := Some completed; Update.result := Some empty_result;
                      Update.error := None |})] failed_first
              {| Report.id := "r-1"; Report.status := failed; Report.timeRange := "last7";
                 Report.topCount := 5; Report.result := None; Report.error := Some "boom";
                 Report.createdAt := 3; Report.updatedAt := 5 |})
    as (report' & Hget & _ & Herr).
  - unfold getReport, failed_first. rewrite lookup_singleton_eq. reflexivity.
  - exists report'. split; [exact Hget|]. apply Herr. eexists. reflexivity.
Defined.


End StoreOperations.

(* ================================================================== *)
(** * More of the orchestrator                                        *)
(* ================================================================== *)

Section Orchestrator.
Import Db DbFacts Server.

(** The text in front of the status text holds no start of either phrase. *)
Lemma includes_validation_message (statusText phrase : string) :
  phrase = "Invalid Voiceflow API key" \/ phrase = "Invalid project ID" ->
  includes ("Failed to validate credentials: " ++ statusText) phrase
  = includes statusText phrase.
Proof. intros [-> | ->]; reflexivity. Qed.



(** X6: a submission whose range label is not one of the six, or whose
    report id is taken, is handed to the error middleware with the store as
    it was and no analysis started, whatever the probe would answer. *)
Theorem rejected_submission_leaves_the_store
    (now : Z) (reportId : string) (query : Query) (testRequest : exn + Response)
    (db : table) :
  parse_range (default "last7" (range query)) = None \/ is_Some (db !! reportId) ->
  exists e, analyzeHandler now reportId query testRequest db = (db, next e, None).
Proof.
  intros Hbad. unfold analyzeHandler.
  destruct (parse_range (default "last7" (range query))) as [timeRange|]; [|eauto].
  destruct Hbad as [Hbad|[row Hrow]]; [discriminate|].
  unfold createReport. rewrite Hrow. eauto.
Qed.

Lemma rejected_submission_leaves_the_store_witness :
  exists e,
    analyzeHandler 3 "r-1" {| range := Some "last week"; top := None |}
      (inr {| status := 200; statusText := "OK" |}) ∅
    = (∅, next e, None).
Proof.
  apply (rejected_submission_leaves_the_store 3 "r-1"
           {| range := Some "last week"; top := None |}
           (inr {| status := 200; statusText := "OK" |}) ∅).
  left. reflexivity.
Defined.

(** X7: the reply to a submission whose probe fails.  A probe status 401 is
    answered with the code 401 and the text of the invalid key, a status 404
    with the code 404 and the text of the invalid project; for any other
    failing status the code is 500 and the text names the status text,
    unless the status text itself holds one of the two phrases, which then
    decides the code. *)
Theorem failed_probe_reply
    (now : Z) (reportId : string) (query : Query) (testRequest : Response)
    (db : table) (timeRange : TimeRange) :
  parse_range (default "last7" (range query)) = Some timeRange ->
  db !! reportId = None ->
  ok testRequest = false ->
  snd (post_analyze now reportId query (inr testRequest) db)
  = if status testRequest =? 401 then (401, error_body "Invalid Voiceflow API key")
    else if status testRequest =? 404 then (404, error_body "Invalid project ID")
    else if includes (statusText testRequest) "Invalid Voiceflow API key"
    then (401, error_body "Invalid Voiceflow API key")
    else if includes (statusText testRequest) "Invalid project ID"
    then (404, error_body "Invalid project ID")
    else (500, error_body ("Failed to validate credentials: " ++ statusText testRequest)).
Proof.
  intros Hrange Hfresh Hok. unfold post_analyze, analyzeHandler, createReport.
  rewrite Hrange, Hfresh, Hok. cbn [negb].
  destruct (status testRequest =? 401); [reflexivity|].
  destruct (status testRequest =? 404); [reflexivity|].
  cbn [snd]. unfold errorHandler. cbn [exn_message].
  rewrite !includes_validation_message by auto. reflexivity.
Qed.

Lemma failed_probe_reply_witness :
  snd (post_analyze 3 "r-1" {| range := None; top := None |}
         (inr {| status := 503; statusText := "Service Unavailable" |}) ∅)
  = (500, error_body "Failed to validate credentials: Service Unavailable").
Proof.
  rewrite (failed_probe_reply 3 "r-1" {| range := None; top := None |}
             {| status := 503; statusText := "Service Unavailable" |} ∅ last7);
    reflexivity.
Defined.

End Orchestrator.

(* ================================================================== *)
(** * The time window                                                 *)
(* ================================================================== *)

Section Windows.
Import TimeWindow.

Lemma dayOfMonth_pos (z : Z) : 1 <= dayOfMonth z.
Proof.
  unfold dayOfMonth. cbv zeta.
  match goal with
  | |- 1 <= ?doy - (153 * ((5 * ?doy + 2) / 153) + 2) / 5 + 1 =>
      generalize doy; intros d
  end.
  Z.div_mod_to_equations. lia.
Qed.

Lemma utc_laws : calendar_laws utc.
Proof.
  split; cbn; unfold day_ms.
  - intros t. pose proof (Z.mod_pos_bound t 86400000). lia.
  - intros t. pose proof (Z.mod_pos_bound t 86400000).
    pose proof (dayOfMonth_pos (t / 86400000)). nia.
  - intros t. lia.
  - intros t k k' Hk. lia.
Qed.

Variable calendar : Calendar.
Variable Date_parse : string -> option Z.
Hypothesis laws : calendar_laws calendar.

Lemma addDays_back (t k : Z) : k <= 0 -> addDays calendar t k <= t.
Proof.
  intros Hk. rewrite <- (addDays_0 calendar laws t) at 2.
  apply (addDays_mono calendar laws). exact Hk.
Qed.

(** X8: for a clock that reads no instant before the epoch, every range
    resolves to a window that starts no later than it ends and ends no
    later than the clock reading. *)
Theorem windows_are_ordered (now : Z) (range : TimeRange) :
  0 <= now ->
  fst (getTimeRangeConstraints calendar now range)
  <= snd (getTimeRangeConstraints calendar now range)
  /\ snd (getTimeRangeConstraints calendar now range) <= now.
Proof.
  intros Hnow.
  pose proof (startOfDay_le calendar laws now) as Hday.
  pose proof (startOfMonth_le calendar laws (startOfDay calendar now)) as Hmonth.
  pose proof (addDays_back (startOfDay calendar now) (-1) ltac:(lia)).
  pose proof (addDays_back (startOfDay calendar now) (-7) ltac:(lia)).
  pose proof (addDays_back (startOfDay calendar now) (-30) ltac:(lia)).
  destruct range; cbn; lia.
Qed.

(** X9: at one clock reading the windows are nested: a message in the
    window of today is in those of the last 7 days and of the month to date,
    a message in the window of yesterday is in that of the last 7 days, a
    message in the window of the last 7 days is in that of the last 30 days;
    and a start time that does not parse to a date is in no window. *)
Theorem windows_are_nested (now : Z) (startTime : string) :
  let inside := isMessageInTimeRange calendar Date_parse now startTime in
  (inside today = true -> inside last7 = true /\ inside monthToDate = true)
  /\ (inside yesterday = true -> inside last7 = true)
  /\ (inside last7 = true -> inside last30 = true)
  /\ (Date_parse startTime = None -> forall range, inside range = false).
Proof.
  intros inside. subst inside. unfold isMessageInTimeRange.
  pose proof (startOfDay_le calendar laws now) as Hday.
  pose proof (startOfMonth_le calendar laws (startOfDay calendar now)) as Hmonth.
  pose proof (addDays_back (startOfDay calendar now) (-7) ltac:(lia)) as H7.
  pose proof (addDays_mono calendar laws (startOfDay calendar now) (-7) (-1) ltac:(lia)).
  pose proof (addDays_mono calendar laws (startOfDay calendar now) (-30) (-7) ltac:(lia)).
  destruct (Date_parse startTime) as [t|]; cbn.
  - rewrite !andb_true_iff, !Z.leb_le. repeat split; try discriminate; lia.
  - repeat split; try discriminate; try reflexivity.
Qed.

(** X10: both ends of a window belong to it.  A message stamped with the
    local midnight that starts today is in the window of yesterday and in
    the window of today. *)
Theorem midnight_is_in_both_days (now : Z) (startTime : string) :
  Date_parse startTime = Some (startOfDay calendar now) ->
  isMessageInTimeRange calendar Date_parse now startTime yesterday = true
  /\ isMessageInTimeRange calendar Date_parse now startTime today = true.
Proof.
  intros Hparse. unfold isMessageInTimeRange. rewrite Hparse. cbn.
  pose proof (startOfDay_le calendar laws now) as Hday.
  pose proof (addDays_back (startOfDay calendar now) (-1) ltac:(lia)).
  rewrite !andb_true_iff, !Z.leb_le. lia.
Qed.

End Windows.

Lemma windows_are_ordered_witness :
  fst (TimeWindow.getTimeRangeConstraints TimeWindow.utc 1714557600000 monthToDate)
  <= snd (TimeWindow.getTimeRangeConstraints TimeWindow.utc 1714557600000 monthToDate)
  /\ snd (TimeWindow.getTimeRangeConstraints TimeWindow.utc 1714557600000 monthToDate)
     <= 1714557600000.
Proof.
  apply (windows_are_ordered TimeWindow.utc utc_laws 1714557600000 monthToDate). lia.
Defined.

Lemma windows_are_nested_witness :
  TimeWindow.isMessageInTimeRange TimeWindow.utc Sample.Date_parse 1714557600000
    "2024-05-01T10:00:00.000Z" last7 = true.
Proof.
  apply (windows_are_nested TimeWindow.utc Sample.Date_parse utc_laws 1714557600000
           "2024-05-01T10:00:00.000Z").
  reflexivity.
Defined.

Lemma midnight_is_in_both_days_witness :
  TimeWindow.isMessageInTimeRange TimeWindow.utc Sample.Date_parse 1714557600000
    "2024-05-01T00:00:00.000Z" yesterday = true
  /\ TimeWindow.isMessageInTimeRange TimeWindow.utc Sample.Date_parse 1714557600000
       "2024-05-01T00:00:00.000Z" today = true.
Proof.
  apply (midnight_is_in_both_days TimeWindow.utc Sample.Date_parse utc_laws 1714557600000
           "2024-05-01T00:00:00.000Z").
  reflexivity.
Defined.

(* ================================================================== *)
(** * The daily batcher                                               *)
(* ================================================================== *)

Section Batcher.
Import JsFacts.
Variable localeCompare : string -> string -> Z.
Variable tokenize : string -> option (list string).
Variable isMessageInTimeRange : string -> TimeRange -> bool.
Variable range : TimeRange.

Lemma Map_set_values {V : Type} (P : V -> Prop) (m : Map V) (k : string) (v : V) :
  Forall (fun entry => P entry.2) m -> P v ->
  Forall (fun entry => P entry.2) (Map_set m k v).
Proof.
  intros Hm Hv. induction Hm as [|[k0 v0] m H0 Hm IH]; cbn.
  - repeat constructor. exact Hv.
  - destruct (String.eqb k0 k); constructor; auto.
Qed.

Lemma Map_set_key {V : Type} (m : Map V) (k k' : string) (v : V) :
  In k' (map fst (Map_set m k v)) -> In k' (map fst m) \/ k' = k.
Proof.
  induction m as [|[k0 v0] m IH]; cbn.
  - intros [<-|[]]. auto.
  - destruct (String.eqb_spec k0 k) as [->|Hne]; cbn.
    + intros [<-|Hin]; auto.
    + intros [<-|Hin]; [auto|]. destruct (IH Hin); auto.
Qed.

Lemma Map_set_append (m : Map (list string)) (k : string) (questions : list string) :
  flat_map snd (Map_set m k (default [] (Map_get m k) ++ questions)%list)
  ≡ₚ (flat_map snd m ++ questions)%list.
Proof.
  induction m as [|[k0 v0] m IH]; cbn.
  - rewrite app_nil_r. reflexivity.
  - destruct (String.eqb_spec k0 k) as [->|Hne]; cbn.
    + rewrite <- !app_assoc. apply Permutation_app_head, Permutation_app_comm.
    + rewrite IH, app_assoc. reflexivity.
Qed.

(** One turn of the loop, by what the dialog contributes. *)
Lemma group_dialog_spec (m : Map (list string)) (dialog : list TranscriptDialog) :
  group_dialog tokenize isMessageInTimeRange range m dialog
  = match dialog_questions tokenize isMessageInTimeRange range dialog,
          dialog_day isMessageInTimeRange range dialog with
    | q :: questions, Some date =>
        Map_set m date (default [] (Map_get m date) ++ q :: questions)%list
    | _, _ => m
    end.
Proof.
  unfold group_dialog, dialog_questions, dialog_day.
  destruct (filterDialogsByTimeRange isMessageInTimeRange dialog range)
    as [|firstMessage rest] eqn:Hfiltered; [reflexivity|].
  assert (Hfirst : In firstMessage
                     (filterDialogsByTimeRange isMessageInTimeRange dialog range))
    by (rewrite Hfiltered; left; reflexivity).
  apply filter_In in Hfirst as [_ Hfirst].
  generalize (extractQuestions tokenize (extractTextFromDialog (firstMessage :: rest))).
  intros questions.
  destruct (startTime firstMessage) as [st|]; [|discriminate]. cbn.
  destruct (String.eqb st ""); [discriminate|].
  destruct questions; reflexivity.
Qed.

Lemma grouped_invariant (dialogs : list (list TranscriptDialog)) (m : Map (list string)) :
  let m' := fold_left (group_dialog tokenize isMessageInTimeRange range) dialogs m in
  (NoDup (map fst m) -> NoDup (map fst m'))
  /\ (Forall (fun entry => entry.2 <> []) m -> Forall (fun entry => entry.2 <> []) m')
  /\ (forall k, In k (map fst m') ->
        In k (map fst m)
        \/ exists dialog, In dialog dialogs
                          /\ dialog_day isMessageInTimeRange range dialog = Some k)
  /\ flat_map snd m'
     ≡ₚ (flat_map snd m
         ++ flat_map (dialog_questions tokenize isMessageInTimeRange range) dialogs)%list.
Proof.
  revert m. induction dialogs as [|dialog dialogs IH]; intros m; cbn.
  - repeat split; auto. rewrite app_nil_r. reflexivity.
  - destruct (IH (group_dialog tokenize isMessageInTimeRange range m dialog))
      as (Hkeys & Hvalues & Hdays & Hall).
    rewrite group_dialog_spec in *.
    destruct (dialog_questions tokenize isMessageInTimeRange range dialog)
      as [|q questions] eqn:Hq.
    { repeat split; auto. intros k Hk. destruct (Hdays k Hk) as [?|(d & ? & ?)]; eauto. }
    destruct (dialog_day isMessageInTimeRange range dialog) as [date|] eqn:Hday.
    + split; [|split; [|split]].
      * intros Hm. apply Hkeys, Map_set_keys, Hm.
      * intros Hm. apply Hvalues.
        apply (Map_set_values (fun questions => questions <> [])); [exact Hm|].
        destruct (default [] (Map_get m date)); discriminate.
      * intros k Hk. destruct (Hdays k Hk) as [Hin|(d & ? & ?)]; [|eauto].
        apply Map_set_key in Hin as [Hin| ->]; eauto.
      * rewrite Hall, Map_set_append, <- app_assoc. reflexivity.
    + exfalso. unfold dialog_questions, dialog_day in *.
      destruct (filterDialogsByTimeRange isMessageInTimeRange dialog range)
        as [|firstMessage rest] eqn:Hfiltered; [discriminate|].
      assert (Hfirst : In firstMessage
                         (filterDialogsByTimeRange isMessageInTimeRange dialog range))
        by (rewrite Hfiltered; left; reflexivity).
      apply filter_In in Hfirst as [_ Hfirst].
      destruct (startTime firstMessage); discriminate.
Qed.

Lemma days_of_entries (m : Map (list string)) :
  map DailyQuestions.date
    (map (fun '(date, questions) =>
            {| DailyQuestions.date := date; DailyQuestions.questions := questions |}) m)
  = map fst m
  /\ flat_map DailyQuestions.questions
       (map (fun '(date, questions) =>
               {| DailyQuestions.date := date; DailyQuestions.questions := questions |}) m)
     = flat_map snd m.
Proof.
  induction m as [|[k v] m [IH1 IH2]]; cbn; [auto|]. rewrite IH1, IH2. auto.
Qed.

Lemma days_are_not_empty (dialogs : list (list TranscriptDialog)) :
  Forall (fun day => DailyQuestions.questions day <> [])
    (groupQuestionsByDate localeCompare tokenize isMessageInTimeRange dialogs range).
Proof.
  unfold groupQuestionsByDate.
  destruct (grouped_invariant dialogs []) as (_ & Hvalues & _).
  rewrite (sort_perm _ _). apply Forall_forall.
  intros day Hday. apply list_elem_of_In in Hday.
  apply in_map_iff in Hday as ([k v] & <- & Hin). cbn.
  specialize (Hvalues (Forall_nil_2 _)).
  rewrite Forall_forall in Hvalues. apply (Hvalues (k, v)), list_elem_of_In, Hin.
Qed.


(** X12: batching loses no question and invents none: the questions of all
    batches together are those that the dialogs contribute (for each dialog
    with a turn in the window, the questions extracted from its in-window
    turns), up to their order. *)
Theorem daily_batches_hold_every_question (dialogs : list (list TranscriptDialog)) :
  flat_map DailyQuestions.questions
    (groupQuestionsByDate localeCompare tokenize isMessageInTimeRange dialogs range)
  ≡ₚ flat_map (dialog_questions tokenize isMessageInTimeRange range) dialogs.
Proof.
  unfold groupQuestionsByDate.
  destruct (grouped_invariant dialogs []) as (_ & _ & _ & Hall).
  rewrite (Permutation_flat_map _ (sort_perm _ _)).
  rewrite (proj2 (days_of_entries _)). exact Hall.
Qed.

End Batcher.

(* ================================================================== *)
(** * Calls to the completion service                                 *)
(* ================================================================== *)

Section EngineCalls.
Variable localeCompare : string -> string -> Z.
Variable JSON_parse : string -> string + json.
Variable tokenize : string -> option (list string).
Variable isMessageInTimeRange : string -> TimeRange -> bool.
Variable create : nat -> Z -> list string -> outcome OpenAI.ChatCompletion.

Lemma processDailyBatch_calls (env : Env) (batch : list string) (n n' : nat)
    (result : ClusteringResult) :
  processDailyBatch localeCompare JSON_parse create env batch n = Returns (result, n') ->
  n' = match batch with [] => n | _ :: _ => S n end.
Proof.
  destruct batch as [|q batch]; cbn.
  - unfold ret. intros H. injection H as _ <-. reflexivity.
  - unfold bind, lift.
    destruct (create n (TOP_QUESTIONS env) (q :: batch)) as [response| |];
      try discriminate.
    destruct (cluster_reply localeCompare JSON_parse env response); try discriminate.
    intros H. injection H as _ <-. reflexivity.
Qed.

Lemma process_days_calls (env : Env) (days : list DailyQuestions.t) :
  Forall (fun day => DailyQuestions.questions day <> []) days ->
  forall (acc results : list ClusteringResult) (n n' : nat),
    process_days localeCompare JSON_parse create env days acc n = Returns (results, n') ->
    n' = (n + length days)%nat.
Proof.
  induction 1 as [|day days Hday _ IH]; intros acc results n n'; cbn.
  - unfold ret. intros H. injection H as _ <-. lia.
  - unfold bind at 1.
    destruct (processDailyBatch localeCompare JSON_parse create env
                (DailyQuestions.questions day) n) as [[result n1]| |] eqn:Hbatch;
      try discriminate.
    apply processDailyBatch_calls in Hbatch.
    destruct (DailyQuestions.questions day); [contradiction|]. subst n1.
    intros Hrest. apply IH in Hrest. lia.
Qed.

Lemma nothing_in_window (range : TimeRange) (dialogs : list (list TranscriptDialog)) :
  Forall (fun dialog => filterDialogsByTimeRange isMessageInTimeRange dialog range = [])
    dialogs ->
  groupQuestionsByDate localeCompare tokenize isMessageInTimeRange dialogs range = []
  /\ flat_map
       (fun dialog =>
          map query_text
            (List.filter is_request_with_query
               (filterDialogsByTimeRange isMessageInTimeRange dialog range)))
       dialogs = [].
Proof.
  intros Hnone. unfold groupQuestionsByDate.
  assert (Hfold : forall m,
             fold_left (group_dialog tokenize isMessageInTimeRange range) dialogs m = m).
  { induction Hnone as [|dialog dialogs Hdialog _ IH]; intros m; cbn; [reflexivity|].
    unfold group_dialog at 2. rewrite Hdialog. apply IH. }
  rewrite Hfold. clear Hfold. split; [reflexivity|].
  induction Hnone as [|dialog dialogs Hdialog _ IH]; cbn; [reflexivity|].
  rewrite Hdialog, IH. reflexivity.
Qed.

(** X13: a run that returns has called the completion service once for each
    daily batch, and at most once when the window is today (once when some
    question was collected, never otherwise). *)
Theorem engine_is_called_once_per_batch (env : Env)
    (dialogs : list (list TranscriptDialog)) (n n' : nat) (result : ClusteringResult) :
  analyzeQuestions localeCompare JSON_parse tokenize isMessageInTimeRange create env
    (Returns dialogs) n = Returns (result, n') ->
  if TimeRange_eqb (TIME_RANGE env) today then (n <= n' <= S n)%nat
  else n' = (n + length (groupQuestionsByDate localeCompare tokenize isMessageInTimeRange
                           dialogs (TIME_RANGE env)))%nat.
Proof.
  unfold analyzeQuestions, bind at 1, lift.
  destruct (TimeRange_eqb (TIME_RANGE env) today).
  - intros Hrun. apply processDailyBatch_calls in Hrun.
    destruct (List.filter _ _) in Hrun; lia.
  - unfold bind.
    destruct (process_days _ _ _ _ _ _ _) as [[results n1]| |] eqn:Hdays; try discriminate.
    unfold ret. intros H. injection H as _ <-.
    apply process_days_calls in Hdays; [exact Hdays|].
    apply days_are_not_empty.
Qed.

(** X14: when no turn of any fetched dialog lies in the window, the run
    returns the empty result with a usage of zero and calls the completion
    service not at all, whatever the window. *)
Theorem run_without_turns_in_window (env : Env)
    (dialogs : list (list TranscriptDialog)) (n : nat) :
  Forall
    (fun dialog =>
       filterDialogsByTimeRange isMessageInTimeRange dialog (TIME_RANGE env) = [])
    dialogs ->
  analyzeQuestions localeCompare JSON_parse tokenize isMessageInTimeRange create env
    (Returns dialogs) n
  = Returns ({| questions := []; usage := zero_usage |}, n).
Proof.
  intros Hnone. destruct (nothing_in_window (TIME_RANGE env) dialogs Hnone) as [Hdays Hall].
  unfold analyzeQuestions, bind at 1, lift.
  destruct (TimeRange_eqb (TIME_RANGE env) today).
  - rewrite Hall. reflexivity.
  - rewrite Hdays. cbn. unfold bind, ret, combineResults. cbn.
    unfold slice0. rewrite take_nil. reflexivity.
Qed.

End EngineCalls.

Lemma engine_is_called_once_per_batch_witness :
  exists result,
    analyzeQuestions Sample.codeCompare Sample.parse Sample.tokenize
      Sample.isMessageInTimeRange
      (Sample.answer (Some Sample.two_clusters_text) None)
      {| TIME_RANGE := last7; TOP_QUESTIONS := 10; IS_SERVER := true |}
      (Returns Sample.one_dialog) 0%nat
    = Returns (result, 1%nat).
Proof.
  destruct
    (analyzeQuestions Sample.codeCompare Sample.parse Sample.tokenize
       Sample.isMessageInTimeRange
       (Sample.answer (Some Sample.two_clusters_text) None)
       {| TIME_RANGE := last7; TOP_QUESTIONS := 10; IS_SERVER := true |}
       (Returns Sample.one_dialog) 0%nat) as [[result n']| |] eqn:Hrun;
    [|vm_compute in Hrun; discriminate..].
  exists result.
  pose proof
    (engine_is_called_once_per_batch Sample.codeCompare Sample.parse Sample.tokenize
       Sample.isMessageInTimeRange
       (Sample.answer (Some Sample.two_clusters_text) None)
       {| TIME_RANGE := last7; TOP_QUESTIONS := 10; IS_SERVER := true |}
       Sample.one_dialog 0%nat n' result Hrun) as Hcalls.
  cbv in Hcalls. rewrite Hcalls. reflexivity.
Defined.

Lemma run_without_turns_in_window_witness :
  analyzeQuestions Sample.codeCompare Sample.parse Sample.tokenize
    Sample.isMessageInTimeRange
    (Sample.answer (Some Sample.two_clusters_text) None)
    {| TIME_RANGE := last30; TOP_QUESTIONS := 10; IS_SERVER := true |}
    (Returns [[Sample.turn "request" None (Some "Where is my order?")]; []]) 5%nat
  = Returns ({| questions := []; usage := zero_usage |}, 5%nat).
Proof.
  apply run_without_turns_in_window.
  repeat constructor.
Defined.

(* ================================================================== *)
(** * Fetching                                                        *)
(* ================================================================== *)

Section Fetching.
Import Db DbFacts Server.
Variable localeCompare : string -> string -> Z.
Variable JSON_parse : string -> string + json.
Variable tokenize : string -> option (list string).
Variable isMessageInTimeRange : string -> TimeRange -> bool.
Variable create : nat -> Z -> list string -> outcome OpenAI.ChatCompletion.

Lemma credential_message_not_empty (status : Z) (statusText : string) :
  String.eqb (credential_message status statusText) "" = false.
Proof.
  unfold credential_message.
  destruct (status =? 401); [reflexivity|]. destruct (status =? 404); reflexivity.
Qed.

Lemma failed_write_is_polled (now : Z) (id message : string) (db : table)
    (row : DBReport.t) :
  db !! id = Some row ->
  String.eqb message "" = false ->
  exists db',
    settle now id (Throws (Error message)) db = Returns (inr db')
    /\ getReportHandler id db'
       = (200,
          report_body
            {| data_status := failed; data_timeRange := DBReport.time_range row;
               data_createdAt := DBReport.created_at row; data_updatedAt := now;
               data_result := None; data_error := Some message |}).
Proof.
  intros Hrow Hmessage. eexists. split; [reflexivity|].
  unfold getReportHandler, getReport. rewrite lookup_alter_eq, Hrow.
  unfold sets. cbn. rewrite Hmessage. reflexivity.
Qed.

(** X15: when the validation of the credentials or the listing of the
    transcripts is refused, the run throws whatever the completion service
    would answer; the terminal write then leaves the report failed, and a
    poll shows it with the message of the refusal: the message of the
    credential check, or that of the listing with the status text of the
    response. *)
Theorem fetch_failure_fails_the_report {A : Type} (env : Env)
    (probe : Ingest.Response A) (listing : exn + Ingest.Response (list Ingest.TranscriptSummary))
    (get : nat -> string -> exn + Ingest.Response (list TranscriptDialog))
    (now : Z) (id : string) (db : table) (row : DBReport.t) (n : nat) :
  db !! id = Some row ->
  let analysis :=
    analyzeQuestions localeCompare JSON_parse tokenize isMessageInTimeRange create env
      (Ingest.fetch_all (inr probe) listing get) n in
  let failed_with message :=
    (200,
     report_body
       {| data_status := failed; data_timeRange := DBReport.time_range row;
          data_createdAt := DBReport.created_at row; data_updatedAt := now;
          data_result := None; data_error := Some message |}) in
  (Ingest.ok probe = false ->
   exists db',
     settle now id analysis db = Returns (inr db')
     /\ getReportHandler id db'
        = failed_with
            (credential_message (Ingest.status probe) (Ingest.statusText probe)))
  /\ (forall response,
         Ingest.ok probe = true ->
         listing = inr response ->
         Ingest.ok response = false ->
         exists db',
           settle now id analysis db = Returns (inr db')
           /\ getReportHandler id db'
              = failed_with
                  ("Failed to fetch transcripts: " ++ Ingest.statusText response)%string).
Proof.
  intros Hrow analysis failed_with. subst analysis failed_with. split.
  - intros Hok.
    destruct (failed_write_is_polled now id
                (credential_message (Ingest.status probe) (Ingest.statusText probe))
                db row Hrow (credential_message_not_empty _ _)) as (db' & Hsettle & Hpoll).
    exists db'. split; [|exact Hpoll].
    rewrite <- Hsettle.
    unfold analyzeQuestions, bind, lift, Ingest.fetch_all, Ingest.fetchTranscriptSummaries,
      Ingest.validateVoiceflowCredentials, credential_message.
    rewrite Hok. cbn.
    destruct (Ingest.status probe =? 401); [reflexivity|].
    destruct (Ingest.status probe =? 404); reflexivity.
  - intros response Hok -> Hrefused.
    destruct (failed_write_is_polled now id
                ("Failed to fetch transcripts: " ++ Ingest.statusText response)%string
                db row Hrow eq_refl) as (db' & Hsettle & Hpoll).
    exists db'. split; [|exact Hpoll].
    rewrite <- Hsettle.
    unfold analyzeQuestions, bind, lift, Ingest.fetch_all, Ingest.fetchTranscriptSummaries,
      Ingest.validateVoiceflowCredentials.
    rewrite Hok, Hrefused. reflexivity.
Qed.

(** X16: the loop over the summaries never throws: it keeps at most one
    dialog for each summary, every dialog it keeps is the body of a
    successful response to the request of some summary (the request number
    [i + k] for the summary number [k]), and it keeps one for every summary
    when every request is answered successfully. *)
Theorem failed_dialog_fetches_are_skipped
    (get : nat -> string -> exn + Ingest.Response (list TranscriptDialog))
    (i : nat) (summaries : list Ingest.TranscriptSummary) :
  let dialogs := Ingest.fetch_dialogs get i summaries in
  (length dialogs <= length summaries)%nat
  /\ (forall dialog,
         In dialog dialogs ->
         exists k summary response,
           summaries !! k = Some summary
           /\ get (i + k)%nat (Ingest._id summary) = inr response
           /\ Ingest.ok response = true
           /\ Ingest.json response = dialog)
  /\ ((forall k summary,
          summaries !! k = Some summary ->
          exists response,
            get (i + k)%nat (Ingest._id summary) = inr response
            /\ Ingest.ok response = true) ->
      length dialogs = length summaries).
Proof.
  cbn zeta. revert i. induction summaries as [|summary rest IH]; intros i.
  - cbn. repeat split; [lia|intros ? []].
  - destruct (IH (S i)) as (Hlen & Hfrom & Hall). cbn [Ingest.fetch_dialogs].
    assert (Hshift : forall dialog,
               In dialog (Ingest.fetch_dialogs get (S i) rest) ->
               exists k summary0 response,
                 (summary :: rest) !! k = Some summary0
                 /\ get (i + k)%nat (Ingest._id summary0) = inr response
                 /\ Ingest.ok response = true
                 /\ Ingest.json response = dialog).
    { intros dialog Hin. destruct (Hfrom dialog Hin) as (k & s0 & r & Hk & Hget & Hr).
      exists (S k), s0, r. split; [exact Hk|].
      replace (i + S k)%nat with (S i + k)%nat by lia. auto. }
    assert (Hrest : (forall k summary0,
                        (summary :: rest) !! k = Some summary0 ->
                        exists response,
                          get (i + k)%nat (Ingest._id summary0) = inr response
                          /\ Ingest.ok response = true) ->
                    length (Ingest.fetch_dialogs get (S i) rest) = length rest).
    { intros Hevery. apply Hall. intros k s0 Hk.
      replace (S i + k)%nat with (i + S k)%nat by lia. apply Hevery. exact Hk. }
    unfold Ingest.fetchTranscriptDialog.
    destruct (get i (Ingest._id summary)) as [e|response] eqn:Hget.
    + split; [cbn; lia|]. split; [exact Hshift|].
      intros Hevery. destruct (Hevery 0%nat summary eq_refl) as (r & Hr & _).
      rewrite Nat.add_0_r in Hr. congruence.
    + destruct (Ingest.ok response) eqn:Hok; cbn [negb].
      * split; [cbn; lia|]. split.
        -- intros dialog [<-|Hin]; [|auto].
           exists 0%nat, summary, response. rewrite Nat.add_0_r. auto.
        -- intros Hevery. cbn. f_equal. auto.
      * split; [cbn; lia|]. split; [exact Hshift|].
        intros Hevery. destruct (Hevery 0%nat summary eq_refl) as (r & Hr & Hr').
        rewrite Nat.add_0_r in Hr. congruence.
Qed.

End Fetching.

Lemma fetch_failure_fails_the_report_witness :
  exists db',
    Server.settle 9 "r-1"
      (analyzeQuestions Sample.codeCompare Sample.parse Sample.tokenize
         Sample.isMessageInTimeRange (Sample.answer None None)
         {| TIME_RANGE := last7; TOP_QUESTIONS := 10; IS_SERVER := true |}
         (Ingest.fetch_all
            (inr {| Ingest.status := 401; Ingest.statusText := "Unauthorized";
                    Ingest.json := tt |})
            (inl (Error "fetch failed")) (fun _ _ => inl (Error "fetch failed")))
         0%nat)
      (<["r-1" := Sample.pending_row]> ∅)
    = Returns (inr db')
    /\ Server.getReportHandler "r-1" db'
       = (200,
          Server.report_body
            {| Server.data_status := Db.failed; Server.data_timeRange := "last7";
               Server.data_createdAt := 3; Server.data_updatedAt := 9;
               Server.data_result := None;
               Server.data_error := Some "Invalid Voiceflow API key" |}).
Proof.
  destruct
    (fetch_failure_fails_the_report Sample.codeCompare Sample.parse Sample.tokenize
       Sample.isMessageInTimeRange (Sample.answer None None)
       {| TIME_RANGE := last7; TOP_QUESTIONS := 10; IS_SERVER := true |}
       {| Ingest.status := 401; Ingest.statusText := "Unauthorized"; Ingest.json := tt |}
       (inl (Error "fetch failed")) (fun _ _ => inl (Error "fetch failed"))
       9 "r-1" (<["r-1" := Sample.pending_row]> ∅) Sample.pending_row 0%nat
       (lookup_insert_eq _ _ _)) as [Hrefused _].
  apply Hrefused. reflexivity.
Defined.

(* ================================================================== *)
(** * Configuration                                                   *)
(* ================================================================== *)

Section Configuration.
Import Config.

(** X17: the credentials of a request body do not reach the configuration:
    whatever [VF_API_KEY] and [PROJECT_ID] the overrides carry, [getConfig]
    returns what it returns without them, and a configuration it returns
    holds the project, the two keys and the cloud of [process.env]. *)
Theorem configuration_ignores_body_credentials (process_env : ProcessEnv.t)
    (overrides : Overrides.t) (envVars : EnvVars.t) (key project : option string) :
  let with_credentials :=
    {| Overrides.TIME_RANGE := Overrides.TIME_RANGE overrides;
       Overrides.TOP_QUESTIONS := Overrides.TOP_QUESTIONS overrides;
       Overrides.IS_SERVER := Overrides.IS_SERVER overrides;
       Overrides.VF_API_KEY := key; Overrides.PROJECT_ID := project |} in
  snd (getConfig process_env (Some with_credentials) envVars)
  = snd (getConfig process_env (Some overrides) envVars)
  /\ (forall env,
         snd (getConfig process_env (Some with_credentials) envVars) = inr env ->
         ProcessEnv.PROJECT_ID process_env = Some (Parsed.PROJECT_ID env)
         /\ ProcessEnv.VF_API_KEY process_env = Some (Parsed.VF_API_KEY env)
         /\ ProcessEnv.OPENAI_API_KEY process_env = Some (Parsed.OPENAI_API_KEY env)
         /\ ProcessEnv.VF_CLOUD process_env = Parsed.VF_CLOUD env).
Proof.
  cbn zeta. split; [reflexivity|].
  intros env. unfold getConfig, parse. cbn.
  destruct (ProcessEnv.PROJECT_ID process_env); [|discriminate].
  destruct (ProcessEnv.VF_API_KEY process_env); [|discriminate].
  destruct (ProcessEnv.OPENAI_API_KEY process_env); [|discriminate].
  destruct (parse_range _); [|discriminate].
  intros H. injection H as <-. cbn. auto.
Qed.

(** X18: once the module has loaded (the first [getConfig] returned), a
    request whose range is one of the six names cannot fail the
    configuration, whatever its top count: [setEnvironmentVariables] assigns
    a configuration with that range, the integer that [parseInt] reads from
    the top count (none when it reads no digit), the server flag of the
    request, and the credentials of the configuration loaded first. *)
Theorem reconfiguration_succeeds_after_load (process_env : ProcessEnv.t)
    (loaded : Parsed.t) (state : EnvVars.t * Parsed.t) (vars : Overrides.t)
    (text top : string) (server : bool) (range : TimeRange) :
  snd (getConfig process_env None initial) = inr loaded ->
  Overrides.TIME_RANGE vars = Some text ->
  parse_range text = Some range ->
  Overrides.TOP_QUESTIONS vars = Some top ->
  Overrides.IS_SERVER vars = Some server ->
  setEnvironmentVariables process_env vars state
  = (spread (fst state) vars,
     {| Parsed.PROJECT_ID := Parsed.PROJECT_ID loaded;
        Parsed.VF_API_KEY := Parsed.VF_API_KEY loaded;
        Parsed.OPENAI_API_KEY := Parsed.OPENAI_API_KEY loaded;
        Parsed.TOP_QUESTIONS := parseInt top;
        Parsed.TIME_RANGE := range;
        Parsed.IS_SERVER := server;
        Parsed.VF_CLOUD := Parsed.VF_CLOUD loaded |},
     None).
Proof.
  unfold setEnvironmentVariables, getConfig, parse, spread. cbn.
  intros Hloaded Htext Hrange Htop Hserver.
  rewrite Htext, Htop, Hserver. cbn. rewrite Hrange.
  destruct (ProcessEnv.PROJECT_ID process_env); [|discriminate].
  destruct (ProcessEnv.VF_API_KEY process_env); [|discriminate].
  destruct (ProcessEnv.OPENAI_API_KEY process_env); [|discriminate].
  injection Hloaded as <-. reflexivity.
Qed.

End Configuration.

Lemma reconfiguration_succeeds_after_load_witness :
  Config.setEnvironmentVariables
    {| Config.ProcessEnv.PROJECT_ID := Some "p"; Config.ProcessEnv.VF_API_KEY := Some "k";
       Config.ProcessEnv.OPENAI_API_KEY := Some "o"; Config.ProcessEnv.VF_CLOUD := None |}
    {| Config.Overrides.TIME_RANGE := Some "last30";
       Config.Overrides.TOP_QUESTIONS := Some "5 questions";
       Config.Overrides.IS_SERVER := Some true;
       Config.Overrides.VF_API_KEY := Some "other";
       Config.Overrides.PROJECT_ID := None |}
    (Config.initial,
     {| Config.Parsed.PROJECT_ID := "p"; Config.Parsed.VF_API_KEY := "k";
        Config.Parsed.OPENAI_API_KEY := "o"; Config.Parsed.TOP_QUESTIONS := Some 10;
        Config.Parsed.TIME_RANGE := last7; Config.Parsed.IS_SERVER := false;
        Config.Parsed.VF_CLOUD := None |})
  = ({| Config.EnvVars.TIME_RANGE := "last30";
        Config.EnvVars.TOP_QUESTIONS := "5 questions";
        Config.EnvVars.IS_SERVER := true; Config.EnvVars.VF_API_KEY := Some "other";
        Config.EnvVars.PROJECT_ID := None |},
     {| Config.Parsed.PROJECT_ID := "p"; Config.Parsed.VF_API_KEY := "k";
        Config.Parsed.OPENAI_API_KEY := "o"; Config.Parsed.TOP_QUESTIONS := Some 5;
        Config.Parsed.TIME_RANGE := last30; Config.Parsed.IS_SERVER := true;
        Config.Parsed.VF_CLOUD := None |},
     None).
Proof.
  etransitivity;
    [apply (reconfiguration_succeeds_after_load _
              {| Config.Parsed.PROJECT_ID := "p"; Config.Parsed.VF_API_KEY := "k";
                 Config.Parsed.OPENAI_API_KEY := "o";
                 Config.Parsed.TOP_QUESTIONS := Some 10;
                 Config.Parsed.TIME_RANGE := last7; Config.Parsed.IS_SERVER := false;
                 Config.Parsed.VF_CLOUD := None |}
              _ _ "last30" "5 questions" true last30);
     reflexivity
    |reflexivity].
Defined.

(* ================================================================== *)
(** * Laws of the aggregator                                          *)
(* ================================================================== *)

Section AggregateLaws.
Import JsFacts.
Variable localeCompare : string -> string -> Z.







End AggregateLaws.

(* ================================================================== *)
(** * The merge key                                                   *)
(* ================================================================== *)

Section MergeKey.
Import JsFacts.

Lemma lower_char_idem (c : ascii) : lower_char (lower_char c) = lower_char c.
Proof. destruct c as [[] [] [] [] [] [] [] []]; reflexivity. Qed.

Lemma lower_char_space (c : ascii) : isWhiteSpace (lower_char c) = isWhiteSpace c.
Proof. destruct c as [[] [] [] [] [] [] [] []]; reflexivity. Qed.

Lemma toLowerCase_idem (s : string) : toLowerCase (toLowerCase s) = toLowerCase s.
Proof.
  induction s as [|c s IH]; cbn; [reflexivity|]. rewrite lower_char_idem, IH. reflexivity.
Qed.

Lemma toLowerCase_trimStart (s : string) :
  toLowerCase (trimStart s) = trimStart (toLowerCase s).
Proof.
  induction s as [|c s IH]; cbn; [reflexivity|]. rewrite lower_char_space.
  destruct (isWhiteSpace c); [exact IH|reflexivity].
Qed.

Lemma toLowerCase_trimEnd (s : string) :
  toLowerCase (trimEnd s) = trimEnd (toLowerCase s).
Proof.
  induction s as [|c s IH]; cbn; [reflexivity|]. rewrite <- IH, lower_char_space.
  destruct (trimEnd s); cbn; [|reflexivity].
  destruct (isWhiteSpace c); reflexivity.
Qed.

Lemma trimStart_idem (s : string) : trimStart (trimStart s) = trimStart s.
Proof.
  induction s as [|c s IH]; cbn; [reflexivity|].
  destruct (isWhiteSpace c) eqn:E; [exact IH|]. cbn. rewrite E. reflexivity.
Qed.

Lemma trimEnd_idem (s : string) : trimEnd (trimEnd s) = trimEnd s.
Proof.
  induction s as [|c s IH]; cbn; [reflexivity|].
  destruct (trimEnd s) as [|c' r] eqn:E.
  - destruct (isWhiteSpace c) eqn:Ec; cbn; [reflexivity|]. rewrite Ec. reflexivity.
  - cbn [trimEnd]. cbn [trimEnd] in IH. rewrite IH. reflexivity.
Qed.

Lemma trimStart_trimEnd (s : string) : trimStart (trimEnd s) = trimEnd (trimStart s).
Proof.
  induction s as [|c s IH]; cbn; [reflexivity|].
  destruct (isWhiteSpace c) eqn:Ec.
  - rewrite <- IH. destruct (trimEnd s); cbn; rewrite ?Ec; reflexivity.
  - cbn. destruct (trimEnd s); cbn; rewrite Ec; reflexivity.
Qed.

Lemma normalize_idem (s : string) : normalize (normalize s) = normalize s.
Proof.
  unfold normalize, trim.
  rewrite toLowerCase_trimEnd, toLowerCase_trimStart, toLowerCase_idem.
  rewrite trimStart_trimEnd, trimStart_idem, trimEnd_idem. reflexivity.
Qed.

(** X20: every question that the aggregate shows is a merge key (a string
    that case folding and trimming leave as it is), so it is in lower case
    without white space at either end, whatever the wording of the batch
    entries; and the merge key of a merge key is that key. *)
Theorem aggregate_shows_merge_keys (localeCompare : string -> string -> Z) (env : Env)
    (dailyResults : list ClusteringResult) :
  (forall s, normalize (normalize s) = normalize s)
  /\ (forall k, In k (map fst (frequencies dailyResults)) -> normalize k = k)
  /\ (forall e,
         In e (questions (combineResults localeCompare env dailyResults)) ->
         trim (toLowerCase (question e)) = question e
         /\ toLowerCase (question e) = question e
         /\ trim (question e) = question e).
Proof.
  assert (Hkeys : forall k v,
             Map_get (frequencies dailyResults) k = Some v -> normalize k = k).
  { intros k v Hget. rewrite frequencies_get in Hget.
    destruct (mentions k (all_questions dailyResults)) as [|q l] eqn:E; [discriminate|].
    assert (Hq : In q (mentions k (all_questions dailyResults)))
      by (rewrite E; left; reflexivity).
    apply filter_In in Hq as [_ Hq]. apply String.eqb_eq in Hq. subst k.
    apply normalize_idem. }
  split; [exact normalize_idem|]. split.
  - intros k Hk. apply in_map_iff in Hk as ([k' v] & <- & Hin).
    apply (Hkeys k' v). apply Map_get_elem; [apply frequencies_keys|].
    apply list_elem_of_In, Hin.
  - intros e He. apply combineResults_In in He. apply Hkeys in He.
    unfold normalize in He. split; [exact He|]. split.
    + rewrite <- He at 1. unfold trim.
      rewrite toLowerCase_trimEnd, toLowerCase_trimStart, toLowerCase_idem. exact He.
    + rewrite <- He at 1. unfold trim.
      rewrite trimStart_trimEnd, trimStart_idem, trimEnd_idem. exact He.
Qed.

End MergeKey.

(* ================================================================== *)
(** * What the cluster engine reports                                 *)
(* ================================================================== *)

Section EngineReport.
Import JsFacts.
Variable localeCompare : string -> string -> Z.
Variable JSON_parse : string -> string + json.


End EngineReport.


(* ================================================================== *)
(** * Aggregating an aggregate                                        *)
(* ================================================================== *)

Section Reaggregation.
Import JsFacts.
Variable localeCompare : string -> string -> Z.

Lemma sort_of_sorted {A : Type} (cmp : A -> A -> Z) (l : list A) :
  StronglySorted (before cmp) l -> sort cmp l = l.
Proof.
  induction 1 as [|x l _ IH Hx]; cbn; [reflexivity|]. rewrite IH.
  destruct Hx as [|y l Hxy _]; cbn; [reflexivity|].
  unfold before in Hxy. destruct (Z.leb_spec (cmp x y) 0); [reflexivity|lia].
Qed.

Lemma Map_set_fresh {V : Type} (m : Map V) (k : string) (v : V) :
  Map_get m k = None -> Map_set m k v = (m ++ [(k, v)])%list.
Proof.
  induction m as [|[k0 v0] m IH]; cbn; [reflexivity|].
  destruct (String.eqb k0 k); [discriminate|]. intros H. rewrite IH by exact H. reflexivity.
Qed.

Lemma add_questions_fresh (l : list QuestionFrequency) (m : Map Z) :
  NoDup (map question l) ->
  (forall e, In e l -> normalize (question e) = question e) ->
  (forall e, In e l -> Map_get m (question e) = None) ->
  fold_left add_question l m = (m ++ map (fun e => (question e, count e)) l)%list.
Proof.
  revert m. induction l as [|e l IH]; intros m Hnd Hnormal Hfresh; cbn [fold_left map].
  - rewrite app_nil_r. reflexivity.
  - apply NoDup_cons in Hnd as [Hnotin Hnd].
    assert (He : add_question m e = (m ++ [(question e, count e)])%list).
    { unfold add_question. fold (normalize (question e)).
      rewrite (Hnormal e) by (left; reflexivity).
      rewrite (Hfresh e) by (left; reflexivity). apply Map_set_fresh, Hfresh.
      left. reflexivity. }
    rewrite IH; [rewrite He, <- app_assoc; reflexivity|exact Hnd| |].
    + intros e' He'. apply Hnormal. right. exact He'.
    + intros e' He'. unfold add_question. rewrite Map_get_set.
      fold (normalize (question e)). rewrite (Hnormal e) by (left; reflexivity).
      destruct (String.eqb_spec (question e) (question e')) as [Heq|_].
      * exfalso. apply Hnotin. rewrite Heq. apply list_elem_of_In, in_map, He'.
      * apply Hfresh. right. exact He'.
Qed.

Lemma aggregate_questions_NoDup (env : Env) (dailyResults : list ClusteringResult) :
  NoDup (map question (questions (combineResults localeCompare env dailyResults))).
Proof.
  cbn [questions combineResults].
  set (es := map (fun '(question, count) => {| question := question; count := count |})
               (frequencies dailyResults)).
  destruct (slice0_take (sort (compareFrequency localeCompare) es) (TOP_QUESTIONS env))
    as [n ->].
  eapply sublist_NoDup; [|apply (fmap_sublist question), sublist_take].
  eapply NoDup_Permutation_proper; [apply (fmap_Permutation question), sort_perm|].
  subst es.
  replace (question <$> _) with (map fst (frequencies dailyResults)).
  - apply frequencies_keys.
  - change (map fst (frequencies dailyResults)
            = map question
                (map (fun '(question, count) => {| question := question; count := count |})
                   (frequencies dailyResults))).
    rewrite map_map. apply map_ext. intros [k v]. reflexivity.
Qed.

(** X22: the aggregator is a projection: for a consistent collation and a
    top count that is not negative, aggregating an aggregate on its own
    gives its question list again, the same entries in the same order. *)
Theorem aggregating_an_aggregate_changes_nothing (env : Env)
    (dailyResults : list ClusteringResult) :
  consistent localeCompare ->
  0 <= TOP_QUESTIONS env ->
  questions (combineResults localeCompare env [combineResults localeCompare env dailyResults])
  = questions (combineResults localeCompare env dailyResults).
Proof.
  intros Hc Htop.
  set (aggregate := combineResults localeCompare env dailyResults).
  assert (Hsorted : StronglySorted (before (compareFrequency localeCompare))
                      (questions aggregate)).
  { cbn [questions combineResults aggregate]. apply slice0_sorted, sort_sorted.
    - intros x y. rewrite !before_ranked. apply ranked_total, Hc.
    - intros x y z. rewrite !before_ranked. apply ranked_trans, Hc. }
  assert (Hlength : Z.of_nat (length (questions aggregate)) <= TOP_QUESTIONS env).
  { cbn [questions combineResults aggregate]. apply slice0_length, Htop. }
  assert (Hmap : frequencies [aggregate]
                 = map (fun e => (question e, count e)) (questions aggregate)).
  { unfold frequencies. cbn [fold_left].
    rewrite add_questions_fresh; [reflexivity|apply aggregate_questions_NoDup| |reflexivity].
    intros e He. apply combineResults_In in He. rewrite frequencies_get in He.
    destruct (mentions (question e) (all_questions dailyResults)) as [|q l] eqn:E;
      [discriminate|].
    assert (Hq : In q (mentions (question e) (all_questions dailyResults)))
      by (rewrite E; left; reflexivity).
    apply filter_In in Hq as [_ Hq]. apply String.eqb_eq in Hq. rewrite <- Hq.
    apply normalize_idem. }
  assert (Hentries :
            map (fun '(question, count) => {| question := question; count := count |})
              (frequencies [aggregate])
            = questions aggregate).
  { rewrite Hmap, map_map. rewrite <- (map_id (questions aggregate)) at 2.
    apply map_ext. intros [q c]. reflexivity. }
  change (questions (combineResults localeCompare env [aggregate]))
    with (slice0
            (sort (compareFrequency localeCompare)
               (map (fun '(question, count) => {| question := question; count := count |})
                  (frequencies [aggregate])))
            (TOP_QUESTIONS env)).
  rewrite Hentries, (sort_of_sorted _ _ Hsorted). apply slice0_all, Hlength.
Qed.

End Reaggregation.

Lemma aggregating_an_aggregate_changes_nothing_witness :
  questions
    (combineResults Sample.codeCompare
       {| TIME_RANGE := last7; TOP_QUESTIONS := 1; IS_SERVER := true |}
       [combineResults Sample.codeCompare
          {| TIME_RANGE := last7; TOP_QUESTIONS := 1; IS_SERVER := true |}
          [Sample.batch 350 80; Sample.batch 420 95]])
  = [{| question := "a"; count := 4 |}].
Proof.
  rewrite (aggregating_an_aggregate_changes_nothing Sample.codeCompare
             {| TIME_RANGE := last7; TOP_QUESTIONS := 1; IS_SERVER := true |}
             [Sample.batch 350 80; Sample.batch 420 95]
             SampleFacts.codeCompare_consistent).
  - vm_compute. reflexivity.
  - cbn. lia.
Defined.

(* ================================================================== *)
(** * A batch that fails                                              *)
(* ================================================================== *)

Section FailedBatch.
Variable localeCompare : string -> string -> Z.
Variable JSON_parse : string -> string + json.
Variable tokenize : string -> option (list string).
Variable isMessageInTimeRange : string -> TimeRange -> bool.
Variable create : nat -> Z -> list string -> outcome OpenAI.ChatCompletion.

(** X23: one failing batch fails the run.  When the batches of the days
    before it are processed and the batch of one day throws, the run throws
    that error: the results of the earlier days are dropped and the later
    days are not processed, however many days there are. *)
Theorem one_failed_batch_fails_the_run (env : Env)
    (dialogs : list (list TranscriptDialog)) (n n1 : nat)
    (earlier later : list DailyQuestions.t) (day : DailyQuestions.t)
    (results : list ClusteringResult) (e : exn) :
  TIME_RANGE env <> today ->
  groupQuestionsByDate localeCompare tokenize isMessageInTimeRange dialogs (TIME_RANGE env)
  = (earlier ++ day :: later)%list ->
  batch_results localeCompare JSON_parse create env earlier n = Returns (results, n1) ->
  processDailyBatch localeCompare JSON_parse create env (DailyQuestions.questions day) n1
  = Throws e ->
  analyzeQuestions localeCompare JSON_parse tokenize isMessageInTimeRange create env
    (Returns dialogs) n
  = Throws e.
Proof.
  intros Hrange Hdays Hearlier Hday.
  unfold analyzeQuestions, bind at 1, lift. rewrite (not_today _ Hrange), Hdays.
  unfold bind at 1. rewrite process_days_app, Hearlier.
  cbn [process_days]. unfold bind at 1. rewrite Hday. reflexivity.
Qed.

End FailedBatch.

Lemma one_failed_batch_fails_the_run_witness :
  analyzeQuestions Sample.codeCompare Sample.parse Sample.tokenize
    Sample.isMessageInTimeRange (Sample.answer (Some "not json") None)
    {| TIME_RANGE := last7; TOP_QUESTIONS := 10; IS_SERVER := true |}
    (Returns Sample.one_dialog) 0%nat
  = Throws (SyntaxError "Unexpected token 'o', 'not json' is not valid JSON").
Proof.
  apply (one_failed_batch_fails_the_run Sample.codeCompare Sample.parse Sample.tokenize
           Sample.isMessageInTimeRange (Sample.answer (Some "not json") None)
           {| TIME_RANGE := last7; TOP_QUESTIONS := 10; IS_SERVER := true |}
           Sample.one_dialog 0%nat 0%nat []
           []
           {| DailyQuestions.date := "2024-05-01";
              DailyQuestions.questions := ["How do I reset my password?"] |}
           []).
  - discriminate.
  - reflexivity.
  - reflexivity.
  - reflexivity.
Defined.

(* ================================================================== *)
(** * What a poll shows                                               *)
(* ================================================================== *)

Section Polls.
Import Db Server.

(** X24: a poll shows one payload at most, whatever the store holds.  An
    id without a row is answered with the code 404; a row is answered with
    the code 200, its status and its two time stamps, with the result only
    when the status is completed and with the error only when it is failed.
    So a row that carries both payloads (a report completed after it had
    failed) is shown with its result alone. *)
Theorem poll_shows_one_payload_at_most (reportId : string) (db : table) :
  match db !! reportId with
  | None => getReportHandler reportId db = (404, error_body "Report not found")
  | Some row =>
      exists data,
        getReportHandler reportId db = (200, report_body data)
        /\ data_status data = DBReport.status row
        /\ data_timeRange data = DBReport.time_range row
        /\ data_createdAt data = DBReport.created_at row
        /\ data_updatedAt data = DBReport.updated_at row
        /\ (data_result data = None \/ data_error data = None)
        /\ (data_status data = pending -> data_result data = None /\ data_error data = None)
        /\ (data_status data = completed -> data_result data = DBReport.result row)
        /\ (data_status data = failed -> data_error data = DBReport.error row)
  end.
Proof.
  unfold getReportHandler, getReport. destruct (db !! reportId) as [row|]; [|reflexivity].
  eexists. split; [reflexivity|]. cbn.
  destruct (DBReport.status row); repeat split; auto; discriminate.
Qed.

End Polls.
